(** * The data-preparation pipeline of [streamlit_app.py]

    A shallow embedding of lines 28-65 of the dashboard script: the table
    loader with its column de-duplication, the temporal indexer, the
    pollutant-column classifier, the date-range filter, the numeric coercion
    with its validity gate and the daily resampler, together with the
    Streamlit calls that decide whether the script goes on.

    Conventions of the model.
    - A table is a [DataFrame]: the column names in their order, which of the
      columns are of text (object) dtype, the kind of its index, and the
      rows, each with its index label and its cells.
    - Numbers are exact rationals ([Q]); the rounding of machine floats is
      not part of the model, and no statement below relies on a property of
      a sum or of a quotient that floating-point arithmetic would not keep.
    - Timestamps are integers (nanoseconds since the epoch, no time zone);
      the calendar day of a timestamp is its quotient by the length of a day.
    - What the script delegates to pandas without fixing it in its own text
      (how a string is read as a timestamp or as a number, which sorting
      kernel runs, whether [mean] leaves non-numeric columns out or raises)
      is a parameter of the model, see [Pandas]. *)

From Stdlib Require Import ZArith QArith String Ascii List Bool Lia DecimalString.
From Stdlib Require Import Permutation Sorted Qminmax.
From stdpp Require Import base list sets strings.

Set Warnings "-clear-no-such-hyp".
Set Default Proof Using "Type".

Local Open Scope string_scope.
Local Open Scope list_scope.
Local Open Scope Z_scope.

(** ** Column-name heuristics (lines 33 and 44) *)

Module Names.

(** [str.lower] on the ASCII letters; the substrings searched for below are
    ASCII, and no other character lower-cases into one of their letters
    followed by the next one. *)
Definition lower_ascii (c : ascii) : ascii :=
  let n := nat_of_ascii c in
  if ((65 <=? n)%nat && (n <=? 90)%nat)%bool then ascii_of_nat (n + 32) else c.

Fixpoint lower (s : string) : string :=
  match s with
  | EmptyString => EmptyString
  | String c s' => String (lower_ascii c) (lower s')
  end.

(** [pat in s] *)
Fixpoint contains (pat s : string) : bool :=
  String.prefix pat s ||
  match s with
  | EmptyString => false
  | String _ s' => contains pat s'
  end.

(** line 33: ["date" in c.lower() or "time" in c.lower()] *)
Definition is_temporal (c : string) : bool :=
  contains "date" (lower c) || contains "time" (lower c).

Definition POLLUTANT_KEYS : list string :=
  ["pm2"; "pm10"; "no2"; "so2"; "co"; "o3"].

(** line 44: [any(x in c.lower() for x in [...])] *)
Definition is_pollutant (c : string) : bool :=
  existsb (fun x => contains x (lower c)) POLLUTANT_KEYS.

End Names.

(** ** Tables *)

Inductive Cell : Type :=
| Num (q : Q)        (* a number *)
| Str (s : string)   (* a text token of an object column *)
| NaN.               (* missing *)

Definition is_missing (c : Cell) : bool :=
  match c with NaN => true | _ => false end.

Definition is_text (c : Cell) : bool :=
  match c with Str _ => true | _ => false end.

Record Row : Type := mkRow { label : Z; cells : list Cell }.

Record DataFrame : Type := mkDF {
  columns : list string;
  object_dtype : list bool; (* per column: [true] for dtype object (text), [false] for a numeric dtype *)
  datetime_index : bool;    (* [true]: DatetimeIndex, [false]: the RangeIndex of read_csv *)
  rows : list Row
}.

(** The parsed content of the uploaded file: the header row and the body. *)
Record Csv : Type := mkCsv { header : list string; body : list (list Cell) }.

(** ** Header names of [pd.read_csv] (line 28)

    [read_csv] does not hand a repeated header name on: the second column
    called [x] becomes [x.1], the third [x.2], and so on, skipping a name
    already taken (pandas, [dedup_names]):
<<
    counts = defaultdict(int)
    for i, col in enumerate(names):
        cur_count = counts[col]
        while cur_count > 0:
            counts[col] = cur_count + 1
            col = f"{col}.{cur_count}"
            cur_count = counts[col]
        names[i] = col
        counts[col] = cur_count + 1
>> *)

(** [str(n)] *)
Definition decimal (n : nat) : string := NilEmpty.string_of_uint (Nat.to_uint n).

(** What the renaming appends to a name: dots and decimal digits. *)
Definition dot_or_digit (a : ascii) : bool :=
  let n := nat_of_ascii a in
  (n =? 46)%nat || ((48 <=? n)%nat && (n <=? 57)%nat).

Fixpoint dots_and_digits (s : string) : bool :=
  match s with
  | EmptyString => true
  | String a s' => dot_or_digit a && dots_and_digits s'
  end.

(** Nothing, or a dot followed by dots and digits. *)
Definition renaming_suffix (s : string) : bool :=
  match s with
  | EmptyString => true
  | String a s' => Ascii.eqb a "." && dots_and_digits s'
  end.

(** The dict [counts], the latest entry of a name first; a name without an
    entry counts 0. *)
Fixpoint count_of (counts : list (string * nat)) (col : string) : nat :=
  match counts with
  | [] => 0%nat
  | (k, n) :: counts' => if String.eqb k col then n else count_of counts' col
  end.

(** The length of the longest name with an entry. *)
Fixpoint longest (counts : list (string * nat)) : nat :=
  match counts with
  | [] => 0%nat
  | (k, _) :: counts' => Nat.max (String.length k) (longest counts')
  end.

(** The [while] loop. Every round makes the name longer, and a name longer
    than every name with an entry counts 0: [S (longest counts)] rounds are
    enough, see [rename_fresh]. *)
Fixpoint rename (fuel : nat) (counts : list (string * nat)) (col : string)
    : list (string * nat) * string :=
  match count_of counts col, fuel with
  | S k, S fuel' =>
      rename fuel' ((col, S (S k)) :: counts) (col ++ "." ++ decimal (S k))
  | _, _ => (counts, col)
  end.

Fixpoint dedup_from (counts : list (string * nat)) (names : list string) : list string :=
  match names with
  | [] => []
  | n :: names' =>
      let '(counts', col) := rename (S (longest counts)) counts n in
      col :: dedup_from ((col, S (count_of counts' col)) :: counts') names'
  end.

Definition dedup_names (names : list string) : list string := dedup_from [] names.

(** The cells of column position [j] of the file. *)
Definition file_column (j : nat) (f : Csv) : list Cell :=
  map (fun cs => nth j cs NaN) (body f).

(** line 28: the frame [pd.read_csv] returns has the header names made
    distinct and a RangeIndex 0, 1, ...; a column with a text token in it is
    of dtype object, any other column of a numeric dtype. *)
Definition read_csv (f : Csv) : DataFrame :=
  {| columns := dedup_names (header f);
     object_dtype := map (fun j => existsb is_text (file_column j f))
                         (seq 0 (length (header f)));
     datetime_index := false;
     rows := imap (fun i cs => mkRow (Z.of_nat i) cs) (body f) |}.

(** The cell of column position [j] in every row. *)
Definition column_at (j : nat) (df : DataFrame) : list (option Cell) :=
  map (fun r => cells r !! j) (rows df).

(** ** Boolean indexing *)

(** [l[mask]]: the elements of [l] whose mask bit is set. *)
Fixpoint loc_mask {A : Type} (mask : list bool) (l : list A) : list A :=
  match mask, l with
  | b :: mask', x :: l' => if b then x :: loc_mask mask' l' else loc_mask mask' l'
  | _, _ => []
  end.

(** Number of set bits before position [i]. *)
Definition rank (mask : list bool) (i : nat) : nat :=
  length (List.filter id (take i mask)).

(** ** Table loader (lines 28-29) *)

(** [Index.duplicated()] with the default [keep="first"]: a name is flagged
    when it has been seen further left. *)
Fixpoint duplicated_from (seen names : list string) : list bool :=
  match names with
  | [] => []
  | n :: names' => existsb (String.eqb n) seen :: duplicated_from (n :: seen) names'
  end.

Definition duplicated (names : list string) : list bool :=
  duplicated_from [] names.

(** line 29: [df.loc[:, ~df.columns.duplicated()]] *)
Definition drop_duplicate_columns (df : DataFrame) : DataFrame :=
  let keep := map negb (duplicated (columns df)) in
  {| columns := loc_mask keep (columns df);
     object_dtype := loc_mask keep (object_dtype df);
     datetime_index := datetime_index df;
     rows := map (fun r => mkRow (label r) (loc_mask keep (cells r))) (rows df) |}.

Definition load (f : Csv) : DataFrame := drop_duplicate_columns (read_csv f).

(** ** The monad of the script: a log of Streamlit calls and an early exit *)

Inductive Event : Type :=
| StSuccess (nrows ncols : nat)                 (* line 30 *)
| StWarning (msg : string)
| StError (msg : string)
| SidebarHeader (title : string)
| Multiselect (options default : list string)   (* line 45 *)
| DateInput (title : string) (default : option Z)
| StMarkdown (text : string)
| StHeader (title : string).

Inductive Exn : Type := AttributeError | TypeError | ValueError.

Inductive Outcome (A : Type) : Type :=
| Ok (a : A)
| Stopped            (* [st.stop()] *)
| Raised (e : Exn).  (* an exception nobody catches *)

Arguments Ok {A} a.
Arguments Stopped {A}.
Arguments Raised {A} e.

Definition App (A : Type) : Type := (Outcome A * list Event)%type.

Definition ret {A : Type} (a : A) : App A := (Ok a, []).

Definition bind {A B : Type} (m : App A) (k : A -> App B) : App B :=
  match m with
  | (Ok a, log) => let '(r, log') := k a in (r, log ++ log')
  | (Stopped, log) => (Stopped, log)
  | (Raised e, log) => (Raised e, log)
  end.

Definition emit (e : Event) : App unit := (Ok tt, [e]).
Definition st_stop {A : Type} : App A := (Stopped, []).
Definition raise {A : Type} (e : Exn) : App A := (Raised e, []).
Definition lift {A : Type} (o : Outcome A) : App A := (o, []).

Declare Scope app_scope.
Delimit Scope app_scope with app.
Notation "'let!' x ':=' m 'in' k" := (bind m (fun x => k))
  (at level 10, x name, m at level 100, k at level 200) : app_scope.
Notation "m '>>' k" := (bind m (fun _ => k))
  (at level 80, right associativity) : app_scope.

(** ** What the user does in the sidebar *)

Record UI : Type := mkUI {
  picked_pollutants : option (list string);  (* [None]: the multiselect is left at its default *)
  picked_start : option Z;                   (* [None]: the date input is left at its default *)
  picked_end : option Z
}.

(** The value of [st.sidebar.multiselect]: the widget returns options only. *)
Definition chosen_options (options default : list string)
    (picked : option (list string)) : list string :=
  match picked with
  | None => default
  | Some l => List.filter (fun c => bool_decide (c ∈ options)) l
  end.

Definition multiselect (options default : list string)
    (picked : option (list string)) : App (list string) :=
  (emit (Multiselect options default) >> ret (chosen_options options default picked))%app.

(** The value of [st.sidebar.date_input]: the picked day, or else the
    default. *)
Definition chosen_date (default picked : option Z) : option Z :=
  match picked with
  | None => default
  | Some d => Some d
  end.

(** [st.sidebar.date_input(title, default)]; [None] is NaT, the [date()] of
    the extremum of an empty DatetimeIndex, which the widget refuses as a
    default: it raises [ValueError] before anything is drawn. *)
Definition date_input (title : string) (default picked : option Z) : App (option Z) :=
  match default with
  | None => raise ValueError
  | Some _ => (emit (DateInput title default) >> ret (chosen_date default picked))%app
  end.

(** ** Calendar days *)

Definition NS_PER_DAY : Z := 86400000000000.

(** [Timestamp.date()] as a day number. *)
Definition date_of (t : Z) : Z := t / NS_PER_DAY.

(** [Index.min()] and [Index.max()]; [None] on an empty index. *)
Definition index_min (ls : list Z) : option Z :=
  match ls with
  | [] => None
  | l :: ls' => Some (fold_left Z.min ls' l)
  end.

Definition index_max (ls : list Z) : option Z :=
  match ls with
  | [] => None
  | l :: ls' => Some (fold_left Z.max ls' l)
  end.

(** ** Concrete stand-ins for the library parameters, used in the examples *)

Module Demo.

Definition digit_of (c : ascii) : option Z :=
  let n := Z.of_nat (nat_of_ascii c) in
  if (48 <=? n) && (n <=? 57) then Some (n - 48) else None.

Fixpoint digits_from (acc : Z) (s : string) : option Z :=
  match s with
  | EmptyString => Some acc
  | String c s' =>
      match digit_of c with
      | Some d => digits_from (10 * acc + d) s'
      | None => None
      end
  end.

(** Non-empty strings of decimal digits. *)
Definition decimal (s : string) : option Z :=
  match s with
  | EmptyString => None
  | _ => digits_from 0 s
  end.

(** A numeric token is a decimal natural number. *)
Definition to_numeric_token (s : string) : option Q :=
  match decimal s with Some n => Some (inject_Z n) | None => None end.

Definition NS_PER_HOUR : Z := 3600000000000.

(** A timestamp is written as a number of hours since the epoch. *)
Definition parse_timestamp (_ : list Cell) (c : Cell) : option Z :=
  match c with
  | Str s => match decimal s with Some h => Some (h * NS_PER_HOUR) | None => None end
  | _ => None
  end.

(** Insertion of index [i] into an index list ordered by key; [before]
    decides whether [i] goes in front of [j]. *)
Fixpoint insert_index (before : Z -> Z -> bool) (ks : list Z) (i : nat)
    (l : list nat) : list nat :=
  match l with
  | [] => [i]
  | j :: l' =>
      if before (nth i ks 0) (nth j ks 0) then i :: j :: l'
      else j :: insert_index before ks i l'
  end.

Definition argsort_with (before : Z -> Z -> bool) (ks : list Z) : list nat :=
  fold_right (insert_index before ks) [] (seq 0 (length ks)).

(** Ties stay in their original order. *)
Definition argsort_stable : list Z -> list nat := argsort_with Z.leb.

End Demo.

(** ** The sorting kernel [sort_values] runs by default

    [sort_values(by=...)] is called without [kind]; the default, "quicksort",
    is numpy's [argsort(kind="quicksort")] on the keys, an introsort
    ([aquicksort_] of npysort/quicksort.cpp): median-of-three partitioning
    while a part has more than [SMALL_QUICKSORT + 1] elements, insertion sort
    on the small parts, heapsort once the depth limit is used up. The model
    follows the C text; [v] is the key array, [a] the array [tosort] of
    positions, [pl], [pr], [pi], [pj] are offsets into [a]. *)

Module NumPy.

Definition SMALL_QUICKSORT : nat := 15.

(** [v[a[p]]] *)
Definition key (v : list Z) (a : list nat) (p : nat) : Z :=
  nth (nth p a 0%nat) v 0.

(** [INTP_SWAP(a[p], a[q])] *)
Definition swap (a : list nat) (p q : nat) : list nat :=
  <[q := nth p a 0%nat]> (<[p := nth q a 0%nat]> a).

Definition swap_if (b : bool) (a : list nat) (p q : nat) : list nat :=
  if b then swap a p q else a.

(** [do { ++pi; } while (v[*pi] < vp);] *)
Fixpoint scan_up (fuel : nat) (v : list Z) (a : list nat) (vp : Z) (pi : nat) : nat :=
  match fuel with
  | O => pi
  | S fuel' => if key v a (S pi) <? vp then scan_up fuel' v a vp (S pi) else S pi
  end.

(** [do { --pj; } while (vp < v[*pj]);] *)
Fixpoint scan_down (fuel : nat) (v : list Z) (a : list nat) (vp : Z) (pj : nat) : nat :=
  match fuel with
  | O => pj
  | S fuel' => if vp <? key v a (pred pj) then scan_down fuel' v a vp (pred pj) else pred pj
  end.

(** [for (;;) { scan up; scan down; if (pi >= pj) break; swap; }] *)
Fixpoint partition_loop (fuel : nat) (v : list Z) (a : list nat) (vp : Z) (pi pj : nat)
    : list nat * nat :=
  match fuel with
  | O => (a, pi)
  | S fuel' =>
      let pi' := scan_up (length a) v a vp pi in
      let pj' := scan_down (length a) v a vp pj in
      if (pj' <=? pi')%nat then (a, pi')
      else partition_loop fuel' v (swap a pi' pj') vp pi' pj'
  end.

(** One round of the [while ((pr - pl) > SMALL_QUICKSORT)] loop: the part
    [pl..pr] is split around the median of its first, middle and last key;
    the result is the array and the final place of the pivot. *)
Definition partition (v : list Z) (a : list nat) (pl pr : nat) : list nat * nat :=
  let pm := (pl + (pr - pl) / 2)%nat in
  let a := swap_if (key v a pm <? key v a pl) a pm pl in
  let a := swap_if (key v a pr <? key v a pm) a pr pm in
  let a := swap_if (key v a pm <? key v a pl) a pm pl in
  let vp := key v a pm in
  let a := swap a pm (pr - 1) in
  let '(a, pi) := partition_loop (length a) v a vp pl (pr - 1) in
  (swap a pi (pr - 1), pi).

(** [while (pj > pl && vp < v[*pk]) { *pj-- = *pk--; }] with [pk = pj - 1] *)
Fixpoint shift_up (fuel : nat) (v : list Z) (a : list nat) (vp : Z) (pl pj : nat)
    : list nat * nat :=
  match fuel with
  | O => (a, pj)
  | S fuel' =>
      if (pl <? pj)%nat && (vp <? key v a (pj - 1))
      then shift_up fuel' v (<[pj := nth (pj - 1) a 0%nat]> a) vp pl (pj - 1)
      else (a, pj)
  end.

(** The insertion sort of a small part: [for (pi = pl + 1; pi <= pr; ++pi)]. *)
Fixpoint insertion_from (fuel : nat) (v : list Z) (a : list nat) (pl pr pi : nat) : list nat :=
  match fuel with
  | O => a
  | S fuel' =>
      if (pi <=? pr)%nat then
        let vi := nth pi a 0%nat in
        let '(a', pj) := shift_up (length a) v a (nth vi v 0) pl pi in
        insertion_from fuel' v (<[pj := vi]> a') pl pr (S pi)
      else a
  end.

Definition insertion_sort (v : list Z) (a : list nat) (pl pr : nat) : list nat :=
  insertion_from (length a) v a pl pr (S pl).

(** [aheapsort_] on the part starting at offset [pl]; its array is indexed
    from 1, so that [a[k]] is the offset [pl + k - 1]. *)
Definition at1 (pl k : nat) : nat := (pl + k - 1)%nat.

(** [for (i = .., j = ..; j <= n;) { ... }]: the sift-down of [tmp]; the
    result is the array and the final [i]. *)
Fixpoint sift (fuel : nat) (v : list Z) (a : list nat) (pl n tmp i j : nat)
    : list nat * nat :=
  match fuel with
  | O => (a, i)
  | S fuel' =>
      if (j <=? n)%nat then
        let j := if (j <? n)%nat && (key v a (at1 pl j) <? key v a (at1 pl (j + 1)))
                 then (j + 1)%nat else j in
        if nth tmp v 0 <? key v a (at1 pl j)
        then sift fuel' v (<[at1 pl i := nth (at1 pl j) a 0%nat]> a) pl n tmp j (j + j)
        else (a, i)
      else (a, i)
  end.

Definition sift_down (v : list Z) (a : list nat) (pl n tmp i : nat) : list nat :=
  let '(a', i') := sift (length a) v a pl n tmp i (i + i) in
  <[at1 pl i' := tmp]> a'.

(** [for (l = n >> 1; l > 0; --l) { tmp = a[l]; sift; a[i] = tmp; }] *)
Fixpoint heapify (l : nat) (v : list Z) (a : list nat) (pl n : nat) : list nat :=
  match l with
  | O => a
  | S l' => heapify l' v (sift_down v a pl n (nth (at1 pl l) a 0%nat) l) pl n
  end.

(** [for (; n > 1;) { tmp = a[n]; a[n] = a[1]; n -= 1; sift; a[i] = tmp; }] *)
Fixpoint pop_max (n : nat) (v : list Z) (a : list nat) (pl : nat) : list nat :=
  match n with
  | S (S _ as n') =>
      let tmp := nth (at1 pl n) a 0%nat in
      let a := <[at1 pl n := nth (at1 pl 1) a 0%nat]> a in
      pop_max n' v (sift_down v a pl n' tmp 1) pl
  | _ => a
  end.

Definition aheapsort (v : list Z) (a : list nat) (pl pr : nat) : list nat :=
  let n := (pr - pl + 1)%nat in
  pop_max n v (heapify (n / 2) v a pl n) pl.

(** The work on one part [pl..pr] with [cdepth] levels left. The C text keeps
    the larger half of a split on a stack and goes on with the smaller one;
    the parts are disjoint, so that the order in which they are finished
    does not show in the result. [popped] is set for a part taken from the
    stack, and at the start: only there is the depth limit looked at. *)
Fixpoint sort_part (fuel : nat) (popped : bool) (v : list Z) (a : list nat)
    (pl pr : nat) (cdepth : Z) : list nat :=
  match fuel with
  | O => a
  | S fuel' =>
      if popped && (cdepth <? 0) then aheapsort v a pl pr
      else if (SMALL_QUICKSORT <? pr - pl)%nat then
        let '(a, pi) := partition v a pl pr in
        let cdepth := cdepth - 1 in
        if (pi - pl <? pr - pi)%nat then
          let a := sort_part fuel' false v a pl (pi - 1) cdepth in
          sort_part fuel' true v a (pi + 1) pr cdepth
        else
          let a := sort_part fuel' false v a (pi + 1) pr cdepth in
          sort_part fuel' true v a pl (pi - 1) cdepth
      else insertion_sort v a pl pr
  end.

(** [np.argsort(v, kind="quicksort")]: [tosort] starts as 0, 1, ..., the
    depth limit is twice the position of the highest set bit of the length. *)
Definition argsort (v : list Z) : list nat :=
  let n := length v in
  sort_part (S n) true v (seq 0 n) 0 (n - 1) (2 * Z.log2 (Z.of_nat n)).

End NumPy.

(** ** Sample files *)

Module Samples.

(** A header with a repeated name. *)
Definition pm_twice : Csv :=
  {| header := ["Date"; "PM2.5"; "NO2"; "PM2.5"];
     body := [ [Str "0"; Num 50; Num 30; Num 99];
               [Str "24"; Num 60; Num 40; Num 98] ] |}.

(** A table with a repeated column name, as [read_csv] never returns one
    (the side-by-side concatenation of two tables does). *)
Definition repeated : DataFrame :=
  {| columns := ["Date"; "PM2.5"; "NO2"; "PM2.5"];
     object_dtype := [true; false; false; false];
     datetime_index := false;
     rows := [ mkRow 0 [Str "0"; Num 50; Num 30; Num 99];
               mkRow 1 [Str "24"; Num 60; Num 40; Num 98] ] |}.

(** Two readings with the same timestamp. *)
Definition ties : Csv :=
  {| header := ["date"; "pm25"];
     body := [ [Str "7"; Num 1]; [Str "7"; Num 2] ] |}.

(** Seventeen readings with the same timestamp, numbered in the order of the
    file. *)
Definition seventeen_ties : Csv :=
  {| header := ["date"; "pm25"];
     body := map (fun k => [Str "7"; Num (inject_Z (Z.of_nat k))]) (seq 1 17) |}.

(** No reading has a readable timestamp. *)
Definition unreadable : Csv :=
  {| header := ["date"; "pm25"];
     body := [ [Str "n/a"; Num 50]; [Str "soon"; Num 60] ] |}.

(** A column of text that is no pollutant. *)
Definition with_city : Csv :=
  {| header := ["date"; "City"; "pm25"];
     body := [ [Str "0"; Str "Delhi"; Num 50]; [Str "24"; Str "Pune"; Num 60] ] |}.

(** Unsorted readings, one of them without a readable timestamp. *)
Definition shuffled : Csv :=
  {| header := ["Station"; "Timestamp"; "pm25"];
     body := [ [Str "A"; Str "30"; Num 3];
               [Str "A"; Str "n/a"; Num 9];
               [Str "B"; Str "2"; Num 1];
               [Str "B"; Str "26"; Num 2] ] |}.

(** No column name mentions a date or a time. *)
Definition no_date : Csv :=
  {| header := ["PM2.5"; "NO2"];
     body := [ [Num 50; Num 30]; [Num 60; Num 40] ] |}.

(** No column name mentions a pollutant. *)
Definition no_pollutant : Csv :=
  {| header := ["Date"; "Humidity"];
     body := [ [Str "0"; Num 40]; [Str "24"; Num 45] ] |}.

(** The scenario of the specification, with hours for timestamps: two
    readings on day 0, one on day 1. *)
Definition scenario : Csv :=
  {| header := ["date"; "pm25"; "no2"];
     body := [ [Str "0"; Num 50; Str "30"];
               [Str "12"; Num 70; Str "x"];
               [Str "24"; Num 60; Str "40"] ] |}.

(** The untouched sidebar. *)
Definition defaults : UI := mkUI None None None.

(** A column that is neither temporal nor a pollutant. *)
Definition humid : Csv :=
  {| header := ["date"; "pm25"; "Humidity"];
     body := [ [Str "0"; Num 50; Num 40];
               [Str "30"; Num 70; Num 45];
               [Str "80"; Num 60; Num 50] ] |}.

(** Readings on day 0 and on day 2, none on day 1. *)
Definition gap : Csv :=
  {| header := ["date"; "pm25"];
     body := [ [Str "0"; Num 50]; [Str "49"; Num 60] ] |}.

(** A single reading, and it is not a number. *)
Definition all_invalid : Csv :=
  {| header := ["date"; "pm25"];
     body := [ [Str "0"; Str "x"] ] |}.

(** The temporal column also contains a pollutant substring ("co"). *)
Definition recorded : Csv :=
  {| header := ["Recorded Date"; "PM2.5"];
     body := [ [Str "0"; Num 50]; [Str "24"; Num 60] ] |}.

(** The user picks days 10 to 20. *)
Definition days_10_to_20 : UI := mkUI None (Some 10) (Some 20).

(** The end day before the start day. *)
Definition inverted : UI := mkUI None (Some 5) (Some 2).

(** The user replaces the default selection by a column that is no
    candidate. *)
Definition humidity_only : UI := mkUI (Some ["Humidity"]) None None.

(** A daily table of one week, with the day number as value. *)
Definition week : DataFrame :=
  {| columns := ["pm25"];
     object_dtype := [false];
     datetime_index := true;
     rows := map (fun k => mkRow (Z.of_nat k * NS_PER_DAY) [Num (inject_Z (Z.of_nat k))])
                 (seq 0 7) |}.

(** One reading. *)
Definition one_reading : DataFrame :=
  {| columns := ["pm25"];
     object_dtype := [false];
     datetime_index := true;
     rows := [ mkRow 0 [Num 5] ] |}.

(** Months of thirty days, for the examples of the monthly grouping. *)
Definition thirty_day_month (d : Z) : Z := (d / 30) mod 12 + 1.

(** Three days in the first month, one in the second. *)
Definition two_months : DataFrame :=
  {| columns := ["pm25"];
     object_dtype := [false];
     datetime_index := true;
     rows := [ mkRow (31 * NS_PER_DAY) [Num 9];
               mkRow 0 [Num 1];
               mkRow NS_PER_DAY [NaN];
               mkRow (2 * NS_PER_DAY) [Num 3] ] |}.

End Samples.

(** ** The pipeline *)

Definition NO_DATE_WARNING : string :=
  "No date column detected — time-series plots may not function correctly.".
Definition SELECT_WARNING : string :=
  "Please select at least one pollutant to continue.".
Definition EMPTY_RANGE_ERROR : string :=
  "No data available for the selected date range.".
Definition SPARSE_WARNING : string :=
  "The selected range has less than 7 days — rolling and monthly charts may appear flat.".

(** Running sum and number of observations of one column in one bin of the
    resampler. *)
Abbreviation SumCount := (Q * nat)%type.

(** What the script leaves to pandas. *)
Class Pandas : Type := {
  (** How [pd.to_datetime(..., errors="coerce")] reads one value of a column
      (the whole column is at hand, for the format it infers); [None] is NaT. *)
  parse_timestamp : list Cell -> Cell -> option Z;
  (** How [pd.to_numeric(..., errors="coerce")] reads a text token. *)
  to_numeric_token : string -> option Q;
  (** The sorting kernel behind [sort_values], called with its default kind:
      the positions of the keys in the order of the sorted keys. *)
  argsort : list Z -> list nat;
  (** The default of [numeric_only] in the resampler's [mean]: with [true] a
      column of dtype object is left out (pandas before 2.0), with [false]
      it raises [TypeError] (pandas 2.0 and later). *)
  numeric_only : bool
}.

(** What [sort_values] may rely on, whatever the kernel: all positions, keys
    in non-decreasing order. *)
Definition sorting_kernel (f : list Z -> list nat) : Prop :=
  forall ks, f ks ≡ₚ seq 0 (length ks) /\
             Sorted Z.le (map (fun i => nth i ks 0) (f ks)).

Section Pipeline.

Context {pandas : Pandas}.

(** *** Temporal indexer (lines 31-42) *)

(** lines 32-35: the first column name, from the left, that matches, with its
    position; after line 29 the names are distinct, so that [df[date_col]] is
    the column at that position. *)
Definition detect_date_col (df : DataFrame) : option (nat * string) :=
  list_find (fun c => Names.is_temporal c = true) (columns df).

(** [df[date_col]] for the column at position [p]. *)
Definition column_cells (p : nat) (df : DataFrame) : list Cell :=
  map (fun r => nth p (cells r) NaN) (rows df).

(** line 37 *)
Definition to_datetime (col : list Cell) : list (option Z) :=
  map (parse_timestamp col) col.

Definition keep_stamped (tr : option Z * Row) : option (Z * Row) :=
  match fst tr with
  | Some t => Some (t, snd tr)
  | None => None
  end.

(** lines 37-38: every row with its parsed stamp, the rows with NaT dropped. *)
Definition with_valid_stamp (p : nat) (df : DataFrame) : list (Z * Row) :=
  omap keep_stamped (zip (to_datetime (column_cells p df)) (rows df)).

(** line 39: [sort_values(by=date_col)] takes the rows at [argsort] of the
    keys (a position outside the frame, which no sorting kernel returns, is
    skipped). *)
Definition sort_values (keyed : list (Z * Row)) : list (Z * Row) :=
  omap (fun i => keyed !! i) (argsort (map fst keyed)).

(** line 40: the stamp becomes the label and the column leaves the frame. *)
Definition set_index_row (p : nat) (kr : Z * Row) : Row :=
  mkRow (fst kr) (delete p (cells (snd kr))).

Definition temporal_index (p : nat) (df : DataFrame) : DataFrame :=
  {| columns := delete p (columns df);
     object_dtype := delete p (object_dtype df);
     datetime_index := true;
     rows := map (set_index_row p) (sort_values (with_valid_stamp p df)) |}.


Definition stage_index (f : Csv) : App DataFrame :=
  (let df := load f in
   emit (StSuccess (length (rows df)) (length (columns df))) >>
   match detect_date_col df with
   | Some (p, _) => ret (temporal_index p df)
   | None => emit (StWarning NO_DATE_WARNING) >> ret df
   end)%app.

(** *** Column classifier and selection (lines 43-52) *)

Definition pollutant_cols (df : DataFrame) : list string :=
  List.filter Names.is_pollutant (columns df).

Definition stage_select (df : DataFrame) (ui : UI) : App (list string) :=
  (emit (SidebarHeader "Filter Options") >>
   let! selected := multiselect (pollutant_cols df) (take 3 (pollutant_cols df))
                                (picked_pollutants ui) in
   match selected with
   | [] => emit (StWarning SELECT_WARNING) >> st_stop
   | _ => ret selected
   end)%app.

(** *** Range filter (lines 53-58) *)

(** [df.index.min().date()]: a RangeIndex has integer (or NaN) extrema, which
    have no [date] attribute. *)
Definition index_date (pick : list Z -> option Z) (df : DataFrame) : App (option Z) :=
  if datetime_index df
  then ret (date_of <$> pick (map label (rows df)))
  else raise AttributeError.

Definition on_or_after (start : option Z) (t : Z) : bool :=
  match start with Some s => s <=? date_of t | None => false end.

Definition on_or_before (stop : option Z) (t : Z) : bool :=
  match stop with Some e => date_of t <=? e | None => false end.

(** [(df.index.date >= start_date) & (df.index.date <= end_date)] *)
Definition range_mask (start stop : option Z) (df : DataFrame) : list bool :=
  zip_with andb (map (fun r => on_or_after start (label r)) (rows df))
                (map (fun r => on_or_before stop (label r)) (rows df)).

(** line 55; it runs after line 53 succeeded, on a DatetimeIndex. *)
Definition range_filter (start stop : option Z) (df : DataFrame) : DataFrame :=
  {| columns := columns df;
     object_dtype := object_dtype df;
     datetime_index := datetime_index df;
     rows := loc_mask (range_mask start stop df) (rows df) |}.

Definition stage_range (df : DataFrame) (ui : UI) : App DataFrame :=
  (let! dmin := index_date index_min df in
   let! start := date_input "Start Date" dmin (picked_start ui) in
   let! dmax := index_date index_max df in
   let! stop := date_input "End Date" dmax (picked_end ui) in
   let df' := range_filter start stop df in
   match rows df' with
   | [] => emit (StError EMPTY_RANGE_ERROR) >> st_stop
   | _ => ret df'
   end)%app.

(** *** Numeric coercion and validity gate (lines 60-61) *)

Definition selected_at (sel cols : list string) (j : nat) : bool :=
  match cols !! j with
  | Some c => bool_decide (c ∈ sel)
  | None => false
  end.

Definition to_numeric (c : Cell) : Cell :=
  match c with
  | Num q => Num q
  | Str s => match to_numeric_token s with Some q => Num q | None => NaN end
  | NaN => NaN
  end.

Definition coerce_row (sel cols : list string) (r : Row) : Row :=
  mkRow (label r)
        (imap (fun j c => if selected_at sel cols j then to_numeric c else c) (cells r)).

(** line 60: [pd.to_numeric] returns a numeric column, whatever it is given. *)
Definition coerce_selected (sel : list string) (df : DataFrame) : DataFrame :=
  {| columns := columns df;
     object_dtype := imap (fun j b => if selected_at sel (columns df) j then false else b)
                          (object_dtype df);
     datetime_index := datetime_index df;
     rows := map (coerce_row sel (columns df)) (rows df) |}.

Definition all_selected_missing (sel cols : list string) (r : Row) : bool :=
  forallb id (imap (fun j c => negb (selected_at sel cols j) || is_missing c) (cells r)).

(** line 61: [dropna(subset=selected_pollutants, how="all")] *)
Definition dropna_all (sel : list string) (df : DataFrame) : DataFrame :=
  {| columns := columns df;
     object_dtype := object_dtype df;
     datetime_index := datetime_index df;
     rows := List.filter (fun r => negb (all_selected_missing sel (columns df) r)) (rows df) |}.

Definition validity_gate (sel : list string) (df : DataFrame) : DataFrame :=
  dropna_all sel (coerce_selected sel df).

(** *** Daily resampler (line 62) *)

Definition add_cell (a : SumCount) (c : option Cell) : SumCount :=
  match c with
  | Some (Num q) => ((fst a + q)%Q, S (snd a))
  | _ => a
  end.

Definition finish (a : SumCount) : Cell :=
  match snd a with
  | O => NaN
  | S _ => Num (Qred (fst a / inject_Z (Z.of_nat (snd a))))
  end.

Definition bin_of (first : Z) (r : Row) : nat :=
  Z.to_nat (date_of (label r) - first).

Definition accumulate (first : Z) (acc : list (list SumCount)) (r : Row) : list (list SumCount) :=
  alter (imap (fun j a => add_cell a (cells r !! j))) (bin_of first r) acc.

(** The accumulator of bin [k] and column [j]. *)
Definition slot (acc : list (list SumCount)) (k j : nat) : option SumCount :=
  match acc !! k with
  | Some bin => bin !! j
  | None => None
  end.

(** One bin per calendar day from [first] to [last]; every row is added to
    the bin of its day, then every bin yields sum / count, or NaN without
    any observation. *)
Definition group_mean (ncols : nat) (first last : Z) (rs : list Row) : list Row :=
  let nbins := Z.to_nat (last - first + 1) in
  let acc := fold_left (accumulate first) rs
               (replicate nbins (replicate ncols (0%Q, O))) in
  imap (fun k a => mkRow ((first + Z.of_nat k) * NS_PER_DAY) (map finish a)) acc.

(** Which columns are of dtype object: pandas goes by the dtype of a
    column, not by the cells that are left in it. *)
Definition object_columns (df : DataFrame) : list bool :=
  map (fun j => default false (object_dtype df !! j)) (seq 0 (length (columns df))).

Definition daily_bins (df : DataFrame) : list Row :=
  let days := map (fun r => date_of (label r)) (rows df) in
  match index_min days, index_max days with
  | Some first, Some last => group_mean (length (columns df)) first last (rows df)
  | _, _ => []
  end.

(** [df.resample("D").mean()] *)
Definition resample_mean (df : DataFrame) : Outcome DataFrame :=
  if negb (datetime_index df) then Raised TypeError
  else
    let obj := object_columns df in
    if numeric_only then
      Ok {| columns := loc_mask (map negb obj) (columns df);
            object_dtype := map (fun _ => false) (loc_mask (map negb obj) (columns df));
            datetime_index := true;
            rows := map (fun r => mkRow (label r) (loc_mask (map negb obj) (cells r)))
                        (daily_bins df) |}
    else if existsb id obj then Raised TypeError
    else Ok {| columns := columns df;
               object_dtype := map (fun _ => false) (columns df);
               datetime_index := true;
               rows := daily_bins df |}.

(** lines 59-65 *)
Definition stage_daily (sel : list string) (df : DataFrame) : App (DataFrame * DataFrame) :=
  (emit (StMarkdown "---") >>
   let df := validity_gate sel df in
   let! df_daily := lift (resample_mean df) in
   (if (length (rows df_daily) <? 7)%nat
    then emit (StWarning SPARSE_WARNING) else ret tt) >>
   emit (StHeader "Statistical Overview of Air Quality") >>
   ret (df, df_daily))%app.

(** lines 28-65: the working table and the daily table the rest of the
    script reads. *)
Definition app (f : Csv) (ui : UI) : App (DataFrame * DataFrame) :=
  (let! df := stage_index f in
   let! selected := stage_select df ui in
   let! df := stage_range df ui in
   stage_daily selected df)%app.

(** *** Vocabulary of the properties *)

(** The closed interval of days the range filter is run with. *)
Definition first_day (df : DataFrame) : option Z :=
  date_of <$> index_min (map label (rows df)).

Definition last_day (df : DataFrame) : option Z :=
  date_of <$> index_max (map label (rows df)).

(** The day of a row lies in the closed interval. *)
Definition in_range (start stop : option Z) (r : Row) : Prop :=
  exists s e, start = Some s /\ stop = Some e /\ s <= date_of (label r) <= e.

(** The valid values of the column at position [j] recorded on day [d], in
    the order of the rows. *)
Definition day_values (d : Z) (j : nat) (rs : list Row) : list Q :=
  omap (fun r => if date_of (label r) =? d
                 then match cells r !! j with Some (Num q) => Some q | _ => None end
                 else None) rs.

Definition Qsum (l : list Q) : Q := fold_left Qplus l 0%Q.

(** Arithmetic mean. *)
Definition mean (l : list Q) : Q := (Qsum l / inject_Z (Z.of_nat (length l)))%Q.

(** The daily value of a column: the mean of the day's valid values, missing
    when there is none. *)
Definition daily_value (l : list Q) : Cell :=
  match l with
  | [] => NaN
  | _ => Num (Qred (mean l))
  end.

(** *** The claims of the specification that the code does not keep, in the
    specification's words *)

(** Every column is a selected pollutant (the temporal key is the index). *)
Definition only_selected_columns (sel : list string) (df : DataFrame) : Prop :=
  forall c, c ∈ columns df -> c ∈ sel.

(** Every row of the daily table is the day of some row of the resampled
    table: no day without readings appears. *)
Definition every_day_has_rows (df out : DataFrame) : Prop :=
  forall r, r ∈ rows out ->
            exists r0, r0 ∈ rows df /\ date_of (label r0) = date_of (label r).

(** A run that ends with a daily table of fewer than 7 days has logged the
    warning and holds a non-empty daily table. *)
Definition sparse_run_is_warned_and_non_empty (f : Csv) (ui : UI) : Prop :=
  forall df daily log,
    app f ui = (Ok (df, daily), log) ->
    (length (rows daily) < 7)%nat ->
    StWarning SPARSE_WARNING ∈ log /\ rows daily <> [].


End Pipeline.

(** ** A library for the examples, with a choice of sorting kernel and of the
    [numeric_only] default *)

Definition demo (sort : list Z -> list nat) (numeric : bool) : Pandas :=
  {| parse_timestamp := Demo.parse_timestamp;
     to_numeric_token := Demo.to_numeric_token;
     argsort := sort;
     numeric_only := numeric |}.

(** ** After the pipeline: what the rest of the script computes from the two
    tables *)

(** The numbers of a column, missing values skipped. *)
Definition numbers (col : list Cell) : list Q :=
  omap (fun c => match c with Num q => Some q | _ => None end) col.

(** [df[c]] for a column name of the table. *)
Definition column_named (c : string) (df : DataFrame) : list Cell :=
  match list_find (fun x => x = c) (columns df) with
  | Some (j, _) => column_cells j df
  | None => []
  end.

(** [Series.mean()], [Series.min()] and [Series.max()]: missing values are
    skipped, and [None] (NaN) is the result when nothing is left. *)
Definition series_mean (vals : list Q) : option Q :=
  match vals with
  | [] => None
  | _ => Some (mean vals)
  end.

Definition series_min (vals : list Q) : option Q :=
  match vals with
  | [] => None
  | x :: l => Some (fold_left Qmin l x)
  end.

Definition series_max (vals : list Q) : option Q :=
  match vals with
  | [] => None
  | x :: l => Some (fold_left Qmax l x)
  end.

(** [df[selected_pollutants].agg().agg()]: the aggregate of every selected
    column, then the aggregate of these. *)
Definition reduce_frame (agg : list Q -> option Q) (sel : list string)
    (df : DataFrame) : option Q :=
  agg (omap (fun c => agg (numbers (column_named c df))) sel).

(** lines 67-69: the three numbers handed to [round(., 2)]. *)
Definition overall_mean : list string -> DataFrame -> option Q := reduce_frame series_mean.
Definition overall_max : list string -> DataFrame -> option Q := reduce_frame series_max.
Definition overall_min : list string -> DataFrame -> option Q := reduce_frame series_min.

(** The rows [i - n + 1 .. i], fewer at the start of the table. *)
Definition rolling_window (n i : nat) (rs : list Row) : list Row :=
  drop (S i - n) (take (S i) rs).

(** [rolling(window=n).mean()] on one cell: the mean of the window when it
    holds [n] numbers (the default [min_periods] is the window size), missing
    otherwise. *)
Definition rolling_cell (n i j : nat) (rs : list Row) : Cell :=
  let vals := numbers (map (fun r => nth j (cells r) NaN) (rolling_window n i rs)) in
  if (length vals <? n)%nat then NaN else Num (Qred (mean vals)).

Definition rolling_mean (n : nat) (df : DataFrame) : DataFrame :=
  {| columns := columns df;
     object_dtype := object_dtype df;
     datetime_index := datetime_index df;
     rows := imap (fun i r =>
                     mkRow (label r)
                           (imap (fun j _ => rolling_cell n i j (rows df)) (cells r)))
                  (rows df) |}.

(** lines 86-89 *)
Definition rolling_avg (df_daily : DataFrame) : DataFrame :=
  if (7 <=? length (rows df_daily))%nat
  then rolling_mean 7 df_daily
  else df_daily.

Inductive MonthlyView : Type :=
| NoMonthlyData   (* line 105: [st.error("No valid monthly data to display.")] *)
| BarView         (* line 109 *)
| LineView.       (* line 112 *)

Section Monthly.

(** [DatetimeIndex.month] of a calendar day. *)
Variable month_of : Z -> Z.

(** The group keys of [groupby]: each key once, in increasing order. *)
Fixpoint insert_key (k : Z) (ks : list Z) : list Z :=
  match ks with
  | [] => [k]
  | x :: ks' =>
      if k <? x then k :: x :: ks'
      else if k =? x then x :: ks'
      else x :: insert_key k ks'
  end.

Definition group_keys (ks : list Z) : list Z := fold_right insert_key [] ks.

(** line 101: the column "Month" of the daily table. *)
Definition month_column (df_daily : DataFrame) : list Z :=
  map (fun r => month_of (date_of (label r))) (rows df_daily).

Definition rows_of_month (m : Z) (df_daily : DataFrame) : DataFrame :=
  {| columns := columns df_daily;
     object_dtype := object_dtype df_daily;
     datetime_index := datetime_index df_daily;
     rows := List.filter (fun r => month_of (date_of (label r)) =? m) (rows df_daily) |}.

(** line 103: [df_daily.groupby("Month")[selected_pollutants].mean()], one
    entry per month with the mean of every selected column. *)
Definition monthly_avg (sel : list string) (df_daily : DataFrame) : list (Z * list Cell) :=
  map (fun m => (m, map (fun c => daily_value (numbers (column_named c (rows_of_month m df_daily))))
                        sel))
      (group_keys (month_column df_daily)).

(** lines 104-113: which monthly chart is drawn. *)
Definition monthly_view (monthly : list (Z * list Cell)) : MonthlyView :=
  match monthly with
  | [] => NoMonthlyData
  | _ => if (length monthly <=? 2)%nat then BarView else LineView
  end.

End Monthly.

(** * Properties *)

(** ** Strings *)

Lemma append_cons (a : ascii) (s t : string) :
  String.append (String a s) t = String a (String.append s t).
Proof. reflexivity. Qed.

Lemma append_nil (t : string) : String.append EmptyString t = t.
Proof. reflexivity. Qed.

Lemma append_assoc (s t u : string) :
  String.append (String.append s t) u = String.append s (String.append t u).
Proof.
  induction s as [|a s IH]; [reflexivity|].
  rewrite !append_cons, IH. reflexivity.
Qed.

Lemma prefix_append (p s : string) :
  String.prefix p s = true <-> exists post, s = String.append p post.
Proof.
  revert s. induction p as [|a p IH]; intros s.
  - split; [intros _; exists s; reflexivity | destruct s; reflexivity].
  - destruct s as [|b s]; simpl.
    + split; [discriminate | intros [post H]; rewrite append_cons in H; discriminate].
    + destruct (Ascii.ascii_dec a b) as [->|Hne].
      * rewrite IH. split; intros [post H]; exists post;
          rewrite append_cons in *; congruence.
      * split; [discriminate | intros [post H]; rewrite append_cons in H; congruence].
Qed.

Lemma contains_substring (pat s : string) :
  Names.contains pat s = true <->
  exists pre post, s = String.append pre (String.append pat post).
Proof.
  induction s as [|a s IH]; cbn [Names.contains].
  - rewrite orb_false_r, prefix_append. split.
    + intros [post H]. exists EmptyString, post. exact H.
    + intros (pre & post & H). destruct pre as [|b pre];
        [|rewrite append_cons in H; discriminate].
      exists post. exact H.
  - rewrite orb_true_iff, prefix_append, IH. split.
    + intros [[post H]|(pre & post & H)].
      * exists EmptyString, post. exact H.
      * exists (String a pre), post. rewrite append_cons. congruence.
    + intros (pre & post & H). destruct pre as [|b pre].
      * left. exists post. exact H.
      * right. exists pre, post. rewrite append_cons in H. congruence.
Qed.

Lemma is_temporal_substring (c : string) :
  Names.is_temporal c = true <->
  exists key pre post, key ∈ ["date"; "time"] /\
    Names.lower c = String.append pre (String.append key post).
Proof.
  unfold Names.is_temporal. rewrite orb_true_iff, !contains_substring. split.
  - intros [(pre & post & H)|(pre & post & H)].
    + exists "date", pre, post. split; [left | exact H].
    + exists "time", pre, post. split; [right; left | exact H].
  - intros (key & pre & post & Hk & H).
    apply elem_of_cons in Hk as [->|Hk]; [left; eauto|].
    apply elem_of_cons in Hk as [->|Hk]; [right; eauto|].
    apply elem_of_nil in Hk. contradiction.
Qed.

Lemma is_pollutant_substring (c : string) :
  Names.is_pollutant c = true <->
  exists key pre post, key ∈ Names.POLLUTANT_KEYS /\
    Names.lower c = String.append pre (String.append key post).
Proof.
  unfold Names.is_pollutant. rewrite existsb_exists. split.
  - intros (key & Hk & H). apply contains_substring in H as (pre & post & H).
    exists key, pre, post. split; [apply list_elem_of_In, Hk | exact H].
  - intros (key & pre & post & Hk & H). exists key.
    split; [apply list_elem_of_In, Hk|]. apply contains_substring. eauto.
Qed.

Lemma lower_ascii_idempotent (a : ascii) :
  Names.lower_ascii (Names.lower_ascii a) = Names.lower_ascii a.
Proof.
  destruct a as [[] [] [] [] [] [] [] []]; vm_compute; reflexivity.
Qed.

Lemma lower_idempotent (s : string) : Names.lower (Names.lower s) = Names.lower s.
Proof.
  induction s as [|a s IH]; [reflexivity|].
  simpl. rewrite lower_ascii_idempotent, IH. reflexivity.
Qed.

Lemma lower_append (s t : string) :
  Names.lower (String.append s t) = String.append (Names.lower s) (Names.lower t).
Proof.
  induction s as [|a s IH]; [reflexivity|].
  rewrite append_cons. simpl. rewrite IH, append_cons. reflexivity.
Qed.

(** What [read_csv] appends to a repeated name does not make a pollutant
    candidate of it: no key of the classifier has a dot in it, and none
    starts with a digit. *)

Lemma renaming_suffix_dots_and_digits (s : string) :
  renaming_suffix s = true -> dots_and_digits s = true.
Proof.
  destruct s as [|a s]; [reflexivity|]. simpl.
  rewrite !andb_true_iff. intros [Ha Hs]. split; [|exact Hs].
  apply Ascii.eqb_eq in Ha. subst a. reflexivity.
Qed.

Lemma lower_ascii_dot_or_digit (a : ascii) :
  dot_or_digit a = true -> Names.lower_ascii a = a.
Proof.
  destruct a as [[] [] [] [] [] [] [] []]; intros H; vm_compute in H |- *;
    try discriminate; reflexivity.
Qed.

Lemma lower_dots_and_digits (s : string) :
  dots_and_digits s = true -> Names.lower s = s.
Proof.
  induction s as [|a s IH]; [reflexivity|]. simpl.
  rewrite andb_true_iff. intros [Ha Hs].
  rewrite lower_ascii_dot_or_digit, IH by assumption. reflexivity.
Qed.

Lemma prefix_cons (a b : ascii) (p s : string) :
  String.prefix (String a p) (String b s) =
  if Ascii.ascii_dec a b then String.prefix p s else false.
Proof. reflexivity. Qed.

Lemma contains_cons (pat : string) (a : ascii) (s : string) :
  Names.contains pat (String a s) =
  String.prefix pat (String a s) || Names.contains pat s.
Proof. reflexivity. Qed.

Lemma no_key_in_suffix (k0 : ascii) (kr sfx : string) :
  dot_or_digit k0 = false -> dots_and_digits sfx = true ->
  Names.contains (String k0 kr) sfx = false.
Proof.
  intros Hk. induction sfx as [|a sfx IH]; intros Hs; [reflexivity|].
  simpl in Hs. apply andb_true_iff in Hs as [Ha Hs].
  rewrite contains_cons, prefix_cons, (IH Hs).
  destruct (Ascii.ascii_dec k0 a) as [->|_]; [congruence | reflexivity].
Qed.

Lemma prefix_before_suffix (key w sfx : string) :
  Names.contains "." key = false -> renaming_suffix sfx = true ->
  String.prefix key (String.append w sfx) = true -> String.prefix key w = true.
Proof.
  intros Hdot Hsfx. revert w. induction key as [|k kr IH]; intros w H.
  - destruct w; reflexivity.
  - rewrite contains_cons in Hdot. apply orb_false_iff in Hdot as [Hk Hkr].
    destruct w as [|b w].
    + rewrite append_nil in H. destruct sfx as [|a sfx]; [discriminate|].
      simpl in Hsfx. apply andb_true_iff in Hsfx as [Ha _].
      apply Ascii.eqb_eq in Ha. subst a.
      rewrite prefix_cons in H. destruct (Ascii.ascii_dec k ".") as [->|_]; [|discriminate].
      exfalso. revert Hk. clear. destruct kr; discriminate.
    + rewrite append_cons, prefix_cons in H. rewrite prefix_cons.
      destruct (Ascii.ascii_dec k b); [|discriminate].
      apply (IH Hkr), H.
Qed.

Lemma contains_before_suffix (k0 : ascii) (kr u sfx : string) :
  dot_or_digit k0 = false -> Names.contains "." (String k0 kr) = false ->
  renaming_suffix sfx = true ->
  Names.contains (String k0 kr) (String.append u sfx) = true ->
  Names.contains (String k0 kr) u = true.
Proof.
  intros Hk Hdot Hsfx. induction u as [|a u IH]; intros H.
  - rewrite append_nil, no_key_in_suffix in H;
      [discriminate | exact Hk | apply renaming_suffix_dots_and_digits, Hsfx].
  - rewrite append_cons, contains_cons in H. rewrite contains_cons.
    apply orb_true_iff in H as [H|H]; apply orb_true_iff.
    + left. apply (prefix_before_suffix _ (String a u) sfx Hdot Hsfx).
      rewrite append_cons. exact H.
    + right. apply IH, H.
Qed.

Lemma is_pollutant_before_suffix (n sfx : string) :
  renaming_suffix sfx = true ->
  Names.is_pollutant (String.append n sfx) = true -> Names.is_pollutant n = true.
Proof.
  intros Hsfx. unfold Names.is_pollutant.
  rewrite lower_append,
    (lower_dots_and_digits sfx (renaming_suffix_dots_and_digits sfx Hsfx)).
  unfold Names.POLLUTANT_KEYS. cbn [existsb]. rewrite !orb_true_iff.
  intros H.
  repeat (destruct H as [H|H];
          [apply contains_before_suffix in H;
             [rewrite H; rewrite ?orb_true_r; tauto | reflexivity | reflexivity | exact Hsfx]|]).
  discriminate.
Qed.

(** ** Boolean indexing and the loader *)

Lemma loc_mask_lookup {A : Type} (mask : list bool) (l : list A) (i : nat) :
  mask !! i = Some true -> loc_mask mask l !! rank mask i = l !! i.
Proof.
  revert l i. induction mask as [|b mask IH]; intros l i Hi.
  - destruct i; discriminate.
  - destruct l as [|x l].
    + destruct i; reflexivity.
    + destruct i as [|i]; simpl in Hi.
      * injection Hi as ->. reflexivity.
      * specialize (IH l i Hi). unfold rank in *. simpl.
        destruct b; simpl; exact IH.
Qed.

Lemma loc_mask_elem {A : Type} (mask : list bool) (l : list A) (x : A) :
  x ∈ loc_mask mask l -> x ∈ l.
Proof.
  revert l. induction mask as [|b mask IH]; intros [|y l] H; simpl in H;
    try (apply elem_of_nil in H; contradiction).
  destruct b.
  - apply elem_of_cons in H as [->|H]; [left | right; auto].
  - right; auto.
Qed.

Lemma existsb_eqb_elem (n : string) (seen : list string) :
  existsb (String.eqb n) seen = true <-> n ∈ seen.
Proof.
  rewrite existsb_exists. split.
  - intros (x & Hx & Heq). apply String.eqb_eq in Heq. subst x.
    apply list_elem_of_In. exact Hx.
  - intros H. exists n. split; [apply list_elem_of_In; exact H | apply String.eqb_refl].
Qed.

Lemma duplicated_from_lookup (seen names : list string) (i : nat) (n : string) :
  names !! i = Some n ->
  exists b, duplicated_from seen names !! i = Some b /\
            (b = true <-> n ∈ seen \/ n ∈ take i names).
Proof.
  revert seen i. induction names as [|m names IH]; intros seen i Hi.
  - destruct i; discriminate.
  - destruct i as [|i]; simpl in Hi |- *.
    + injection Hi as ->. eexists. split; [reflexivity|].
      rewrite existsb_eqb_elem. split; [auto|].
      intros [H|H]; [exact H | apply elem_of_nil in H; contradiction].
    + destruct (IH (m :: seen) i Hi) as (b & Hb & Hiff).
      exists b. split; [exact Hb|]. rewrite Hiff, !elem_of_cons. tauto.
Qed.

Lemma kept_names (seen names : list string) :
  NoDup (loc_mask (map negb (duplicated_from seen names)) names) /\
  forall n, n ∈ loc_mask (map negb (duplicated_from seen names)) names <->
            n ∈ names /\ n ∉ seen.
Proof.
  revert seen. induction names as [|m names IH]; intros seen; simpl.
  - split; [constructor|]. set_solver.
  - destruct (IH (m :: seen)) as [Hnd Hin].
    destruct (existsb (String.eqb m) seen) eqn:E; simpl.
    + apply existsb_eqb_elem in E. split; [exact Hnd|].
      intros n. rewrite Hin. set_solver.
    + assert (m ∉ seen) as Hm.
      { intros H. apply existsb_eqb_elem in H. congruence. }
      split.
      * constructor; [|exact Hnd]. rewrite Hin. set_solver.
      * intros n. rewrite elem_of_cons, Hin.
        destruct (decide (n = m)) as [->|Hne]; set_solver.
Qed.

Lemma load_columns_NoDup (f : Csv) : NoDup (columns (load f)).
Proof. apply (kept_names [] (columns (read_csv f))). Qed.

(** *** The header names of [read_csv] *)

Lemma string_length_append (s t : string) :
  String.length (String.append s t) = (String.length s + String.length t)%nat.
Proof.
  induction s as [|a s IH]; [reflexivity|].
  rewrite append_cons. simpl. rewrite IH. reflexivity.
Qed.

Lemma count_of_cons (k : string) (n : nat) (counts : list (string * nat)) (c : string) :
  count_of ((k, n) :: counts) c = if String.eqb k c then n else count_of counts c.
Proof. reflexivity. Qed.

Lemma count_of_longest (counts : list (string * nat)) (c : string) :
  count_of counts c <> 0%nat -> (String.length c <= longest counts)%nat.
Proof.
  induction counts as [|[k n] counts IH]; intros H; [contradiction|].
  rewrite count_of_cons in H. simpl.
  destruct (String.eqb_spec k c) as [->|Hne]; [lia|].
  specialize (IH H). lia.
Qed.

Lemma rename_eq (fuel : nat) (counts : list (string * nat)) (col : string) :
  rename fuel counts col =
  match count_of counts col, fuel with
  | S k, S fuel' =>
      rename fuel' ((col, S (S k)) :: counts)
             (String.append col (String.append "." (decimal (S k))))
  | _, _ => (counts, col)
  end.
Proof. destruct fuel; reflexivity. Qed.

(** The loop ends on a name without an entry, and gives no entry to a name
    that had none. *)
Lemma rename_fresh (fuel : nat) (counts : list (string * nat)) (col : string) :
  (forall c, count_of counts c <> 0%nat -> (String.length c < fuel + String.length col)%nat) ->
  count_of (fst (rename fuel counts col)) (snd (rename fuel counts col)) = 0%nat /\
  forall c, count_of (fst (rename fuel counts col)) c <> 0%nat <-> count_of counts c <> 0%nat.
Proof.
  revert counts col. induction fuel as [|fuel IH]; intros counts col Hlen;
    rewrite rename_eq; destruct (count_of counts col) as [|k] eqn:E;
    try (simpl; split; [exact E | tauto]).
  - exfalso. specialize (Hlen col). rewrite E in Hlen. specialize (Hlen ltac:(lia)). lia.
  - set (counts' := (col, S (S k)) :: counts).
    set (col' := String.append col (String.append "." (decimal (S k)))).
    assert (forall c, count_of counts' c <> 0%nat <-> count_of counts c <> 0%nat) as Hsame.
    { intros c. unfold counts'. rewrite count_of_cons.
      destruct (String.eqb_spec col c) as [<-|Hne]; [|tauto].
      rewrite E. split; intros _; lia. }
    destruct (IH counts' col') as [H0 Hiff].
    { intros c Hc. apply Hsame, Hlen in Hc. unfold col'.
      rewrite string_length_append, append_cons. simpl. lia. }
    split; [exact H0|]. intros c. rewrite Hiff. apply Hsame.
Qed.

Lemma dots_and_digits_append (s t : string) :
  dots_and_digits (String.append s t) = dots_and_digits s && dots_and_digits t.
Proof.
  induction s as [|a s IH]; [reflexivity|].
  rewrite append_cons. simpl. rewrite IH, andb_assoc. reflexivity.
Qed.

Lemma decimal_digits (n : nat) : dots_and_digits (decimal n) = true.
Proof.
  unfold decimal. induction (Nat.to_uint n) as [|d IH|d IH|d IH|d IH|d IH|d IH|d IH|d IH|d IH|d IH];
    [reflexivity|..]; simpl; exact IH.
Qed.

Lemma append_empty (s : string) : String.append s EmptyString = s.
Proof.
  induction s as [|a s IH]; [reflexivity|]. rewrite append_cons, IH. reflexivity.
Qed.

Lemma rename_base (fuel : nat) (counts : list (string * nat)) (col : string) :
  exists sfx, snd (rename fuel counts col) = String.append col sfx /\
              renaming_suffix sfx = true.
Proof.
  revert counts col. induction fuel as [|fuel IH]; intros counts col;
    rewrite rename_eq; destruct (count_of counts col) as [|k];
    try (exists EmptyString; split; [simpl; rewrite append_empty|]; reflexivity).
  destruct (IH ((col, S (S k)) :: counts)
               (String.append col (String.append "." (decimal (S k)))))
    as (sfx & -> & Hsfx).
  exists (String.append (String.append "." (decimal (S k))) sfx).
  split; [rewrite append_assoc; reflexivity|].
  rewrite !append_cons, append_nil. unfold renaming_suffix.
  rewrite dots_and_digits_append, decimal_digits,
    (renaming_suffix_dots_and_digits sfx Hsfx). reflexivity.
Qed.

Lemma dedup_from_eq (counts : list (string * nat)) (n : string) (names : list string) :
  dedup_from counts (n :: names) =
  snd (rename (S (longest counts)) counts n) ::
  dedup_from ((snd (rename (S (longest counts)) counts n),
               S (count_of (fst (rename (S (longest counts)) counts n))
                           (snd (rename (S (longest counts)) counts n)))) ::
              fst (rename (S (longest counts)) counts n)) names.
Proof.
  cbn [dedup_from]. destruct (rename (S (longest counts)) counts n). reflexivity.
Qed.

Lemma dedup_from_length (names : list string) (counts : list (string * nat)) :
  length (dedup_from counts names) = length names.
Proof.
  revert counts. induction names as [|n names IH]; intros counts; [reflexivity|].
  rewrite dedup_from_eq. simpl. rewrite IH. reflexivity.
Qed.

(** The names [read_csv] hands on are pairwise distinct. *)
Lemma dedup_from_fresh (names : list string) (counts : list (string * nat))
    (seen : list string) :
  (forall c, count_of counts c <> 0%nat <-> c ∈ seen) ->
  NoDup (dedup_from counts names) /\
  forall c, c ∈ dedup_from counts names -> c ∉ seen.
Proof.
  revert counts seen. induction names as [|n names IH]; intros counts seen Hinv.
  - split; [constructor | intros c Hc; apply elem_of_nil in Hc; contradiction].
  - rewrite dedup_from_eq.
    destruct (rename_fresh (S (longest counts)) counts n) as [H0 Hiff].
    { intros c Hc. apply count_of_longest in Hc. lia. }
    set (col := snd (rename (S (longest counts)) counts n)) in *.
    set (counts' := fst (rename (S (longest counts)) counts n)) in *.
    assert (col ∉ seen) as Hcol.
    { intros Hin. apply Hinv, Hiff in Hin. contradiction. }
    destruct (IH ((col, S (count_of counts' col)) :: counts') (col :: seen)) as [Hnd Hout].
    { intros c. rewrite count_of_cons, elem_of_cons.
      destruct (String.eqb_spec col c) as [<-|Hne].
      - split; [intros _; left; reflexivity | intros _; lia].
      - rewrite Hiff, Hinv. split; [tauto|]. intros [->|H]; [contradiction | exact H]. }
    split.
    + constructor; [|exact Hnd]. intros Hin. apply (Hout col Hin). left.
    + intros c Hc. apply elem_of_cons in Hc as [->|Hc]; [exact Hcol|].
      intros Hin. apply (Hout c Hc). right. exact Hin.
Qed.

Lemma dedup_names_NoDup (names : list string) : NoDup (dedup_names names).
Proof.
  apply (dedup_from_fresh names [] []). intros c. simpl.
  split; [intros H; contradiction | intros H; apply elem_of_nil in H; contradiction].
Qed.


(** Every name handed on is the header name of its column, followed by what
    the renaming appended. *)
Lemma dedup_from_lookup (names : list string) (counts : list (string * nat))
    (i : nat) (n : string) :
  names !! i = Some n ->
  exists sfx, dedup_from counts names !! i = Some (String.append n sfx) /\
              renaming_suffix sfx = true.
Proof.
  revert counts i. induction names as [|m names IH]; intros counts i Hi;
    [destruct i; discriminate|].
  rewrite dedup_from_eq. destruct i as [|i]; simpl in Hi.
  - injection Hi as ->.
    destruct (rename_base (S (longest counts)) counts n) as (sfx & Hs & Hsfx).
    exists sfx. split; [rewrite <- Hs; reflexivity | exact Hsfx].
  - apply (IH _ i Hi).
Qed.

Lemma dedup_names_elem (names : list string) (c : string) :
  c ∈ dedup_names names ->
  exists n sfx, n ∈ names /\ c = String.append n sfx /\ renaming_suffix sfx = true.
Proof.
  intros Hc. apply list_elem_of_lookup in Hc as [i Hi].
  assert (i < length names)%nat as Hlt.
  { apply lookup_lt_Some in Hi. unfold dedup_names in Hi.
    rewrite dedup_from_length in Hi. exact Hi. }
  destruct (lookup_lt_is_Some_2 names i Hlt) as [n Hn].
  destruct (dedup_from_lookup names [] i n Hn) as (sfx & Hs & Hsfx).
  unfold dedup_names in Hi. rewrite Hs in Hi. injection Hi as <-.
  exists n, sfx. split; [eapply list_elem_of_lookup_2, Hn|]. split; [reflexivity | exact Hsfx].
Qed.

(** *** Line 29 finds nothing to drop *)

Lemma duplicated_from_distinct (seen names : list string) :
  NoDup names -> (forall n, n ∈ names -> n ∉ seen) ->
  duplicated_from seen names = replicate (length names) false.
Proof.
  revert seen. induction names as [|m names IH]; intros seen Hnd Hseen; [reflexivity|].
  apply NoDup_cons in Hnd as [Hm Hnd]. simpl. f_equal.
  - apply not_true_is_false. intros H. apply existsb_eqb_elem in H.
    apply (Hseen m); [left | exact H].
  - apply IH; [exact Hnd|]. intros n Hn Hin.
    apply elem_of_cons in Hin as [->|Hin]; [contradiction|].
    apply (Hseen n); [right; exact Hn | exact Hin].
Qed.

Lemma loc_mask_all {A : Type} (n : nat) (l : list A) :
  loc_mask (replicate n true) l = take n l.
Proof.
  revert l. induction n as [|n IH]; intros [|x l]; simpl; try reflexivity.
  rewrite IH. reflexivity.
Qed.

Lemma keep_all_distinct (names : list string) :
  NoDup names -> map negb (duplicated names) = replicate (length names) true.
Proof.
  intros Hnd. unfold duplicated.
  rewrite (duplicated_from_distinct [] names Hnd) by (intros n _; apply not_elem_of_nil).
  change (map negb (replicate (length names) false))
    with (negb <$> replicate (length names) false).
  rewrite fmap_replicate. reflexivity.
Qed.

Lemma load_columns (f : Csv) : columns (load f) = dedup_names (header f).
Proof.
  unfold load, drop_duplicate_columns. cbn [columns read_csv].
  rewrite keep_all_distinct by apply dedup_names_NoDup.
  rewrite loc_mask_all. apply firstn_all.
Qed.

(** The names of the loaded table that match a substring of the classifier
    come from header names that match it. *)
Lemma load_columns_base (f : Csv) (c : string) :
  c ∈ columns (load f) ->
  exists n sfx, n ∈ header f /\ c = String.append n sfx /\ renaming_suffix sfx = true.
Proof. rewrite load_columns. apply dedup_names_elem. Qed.

Lemma load_no_candidates (f : Csv) :
  (forall c, c ∈ header f -> Names.is_pollutant c = false) ->
  forall c, c ∈ columns (load f) -> Names.is_pollutant c = false.
Proof.
  intros Hnone c Hc. apply load_columns_base in Hc as (n & sfx & Hn & -> & Hsfx).
  apply not_true_is_false. intros H.
  apply is_pollutant_before_suffix in H; [|exact Hsfx].
  rewrite (Hnone n Hn) in H. discriminate.
Qed.

(** C7. Whatever the header, line 29 finds no repeated name to drop in the
    table [read_csv] returns: the loaded table has the columns of that table,
    as many as the file has, under pairwise distinct names; column [i] of the
    file is column [i] of the loaded table, with its cells, under its header
    name followed by what [read_csv] appended to it (a dot and a number for a
    later column of the same name). No column of the file is discarded. *)
Theorem loader_keeps_every_column (f : Csv) (i : nat) (name : string) :
  header f !! i = Some name ->
  NoDup (columns (read_csv f)) /\
  columns (load f) = columns (read_csv f) /\
  length (columns (load f)) = length (header f) /\
  (exists sfx, columns (load f) !! i = Some (String.append name sfx) /\
               renaming_suffix sfx = true) /\
  column_at i (load f) = column_at i (read_csv f).
Proof.
  intros Hi.
  split; [apply dedup_names_NoDup|].
  split; [apply load_columns|].
  split; [rewrite load_columns; apply dedup_from_length|].
  split; [rewrite load_columns; apply dedup_from_lookup, Hi|].
  unfold column_at, load, drop_duplicate_columns. cbn [rows columns read_csv].
  rewrite keep_all_distinct by apply dedup_names_NoDup.
  rewrite map_map. apply map_ext. intros r. cbn [cells].
  rewrite loc_mask_all. unfold dedup_names. rewrite dedup_from_length.
  apply lookup_take_lt. eapply lookup_lt_Some, Hi.
Qed.

(** ** Temporal indexer *)



Lemma kernel_in_range (f : list Z -> list nat) (ks : list Z) :
  sorting_kernel f -> Forall (fun i => (i < length ks)%nat) (f ks).
Proof.
  intros H. apply Forall_forall. intros i Hi.
  rewrite (proj1 (H ks)) in Hi. apply elem_of_seq in Hi. lia.
Qed.

Lemma take_keys {A : Type} (keyed : list (Z * A)) (order : list nat) :
  Forall (fun i => (i < length keyed)%nat) order ->
  map fst (omap (fun i => keyed !! i) order) =
  map (fun i => nth i (map fst keyed) 0) order.
Proof.
  induction 1 as [|i order Hi _ IH]; [reflexivity|].
  destruct (lookup_lt_is_Some_2 keyed i Hi) as [x Hx].
  cbn [omap list_omap map]. rewrite Hx. cbn [map]. rewrite <- IH. f_equal.
  rewrite nth_lookup, list_lookup_fmap, Hx. reflexivity.
Qed.

Lemma NoDup_delete_lookup {A : Type} (l : list A) (p : nat) (x : A) :
  NoDup l -> l !! p = Some x -> x ∉ delete p l.
Proof.
  intros Hnd Hp Hin. apply list_elem_of_lookup in Hin as [j Hj].
  destruct (decide (j < p)%nat) as [Hlt|Hge].
  - rewrite list_lookup_delete_lt in Hj by exact Hlt.
    pose proof (NoDup_lookup _ _ _ _ Hnd Hj Hp). lia.
  - rewrite list_lookup_delete_ge in Hj by lia.
    pose proof (NoDup_lookup _ _ _ _ Hnd Hj Hp). lia.
Qed.

Lemma delete_elem {A : Type} (l : list A) (p : nat) (x : A) :
  x ∈ delete p l -> x ∈ l.
Proof.
  intros Hin. apply list_elem_of_lookup in Hin as [j Hj].
  apply list_elem_of_lookup.
  destruct (decide (j < p)%nat) as [Hlt|Hge].
  - rewrite list_lookup_delete_lt in Hj by exact Hlt. eauto.
  - rewrite list_lookup_delete_ge in Hj by lia. eauto.
Qed.

Lemma filter_all_false {A : Type} (f : A -> bool) (l : list A) :
  (forall x, x ∈ l -> f x = false) -> List.filter f l = [].
Proof.
  induction l as [|x l IH]; intros H; [reflexivity|].
  simpl. rewrite (H x) by (left; reflexivity).
  apply IH. intros y Hy. apply H. right. exact Hy.
Qed.

Lemma chosen_options_none (default : list string) (picked : option (list string)) :
  default = [] -> chosen_options [] default picked = [].
Proof.
  intros ->. destruct picked as [l|]; [|reflexivity].
  apply filter_all_false. intros x _.
  apply bool_decide_eq_false_2, not_elem_of_nil.
Qed.

Lemma loc_mask_both {A : Type} (f g : A -> bool) (l : list A) :
  loc_mask (zip_with andb (map f l) (map g l)) l =
  List.filter (fun x => f x && g x) l.
Proof.
  induction l as [|x l IH]; [reflexivity|].
  simpl. rewrite IH. reflexivity.
Qed.

Lemma forallb_id_false (l : list bool) :
  forallb id l = false <-> exists i, l !! i = Some false.
Proof.
  induction l as [|b l IH]; simpl.
  - split; [discriminate | intros [i Hi]; destruct i; discriminate].
  - destruct b; simpl.
    + rewrite IH. split.
      * intros [i Hi]. exists (S i). exact Hi.
      * intros [[|i] Hi]; [discriminate | exists i; exact Hi].
    + split; [intros _; exists 0%nat; reflexivity | reflexivity].
Qed.

(** ** Extrema of an index *)

Lemma fold_min_le (l : list Z) (a x : Z) :
  x ∈ a :: l -> fold_left Z.min l a <= x.
Proof.
  revert a x. induction l as [|y l IH]; intros a x Hx; simpl.
  - apply list_elem_of_singleton in Hx. lia.
  - apply elem_of_cons in Hx as [->|Hx].
    + specialize (IH (Z.min a y) (Z.min a y) ltac:(left)). lia.
    + apply elem_of_cons in Hx as [->|Hx].
      * specialize (IH (Z.min a y) (Z.min a y) ltac:(left)). lia.
      * apply IH. right. exact Hx.
Qed.

Lemma fold_max_ge (l : list Z) (a x : Z) :
  x ∈ a :: l -> x <= fold_left Z.max l a.
Proof.
  revert a x. induction l as [|y l IH]; intros a x Hx; simpl.
  - apply list_elem_of_singleton in Hx. lia.
  - apply elem_of_cons in Hx as [->|Hx].
    + specialize (IH (Z.max a y) (Z.max a y) ltac:(left)). lia.
    + apply elem_of_cons in Hx as [->|Hx].
      * specialize (IH (Z.max a y) (Z.max a y) ltac:(left)). lia.
      * apply IH. right. exact Hx.
Qed.

Lemma index_min_le (l : list Z) (m x : Z) :
  index_min l = Some m -> x ∈ l -> m <= x.
Proof.
  destruct l as [|a l]; [discriminate|]. intros [= <-]. apply fold_min_le.
Qed.

Lemma index_max_ge (l : list Z) (m x : Z) :
  index_max l = Some m -> x ∈ l -> x <= m.
Proof.
  destruct l as [|a l]; [discriminate|]. intros [= <-]. apply fold_max_ge.
Qed.

Lemma date_of_mono (a b : Z) : a <= b -> date_of a <= date_of b.
Proof. intros H. unfold date_of. apply Z.div_le_mono; [reflexivity | exact H]. Qed.

Lemma fold_min_date (l : list Z) (a : Z) :
  fold_left Z.min (map date_of l) (date_of a) = date_of (fold_left Z.min l a).
Proof.
  revert a. induction l as [|y l IH]; intros a; [reflexivity|].
  simpl. rewrite <- IH. f_equal.
  destruct (Z.le_ge_cases a y) as [H|H]; pose proof (date_of_mono _ _ H).
  - rewrite !Z.min_l by assumption. reflexivity.
  - rewrite !Z.min_r by assumption. reflexivity.
Qed.

Lemma fold_max_date (l : list Z) (a : Z) :
  fold_left Z.max (map date_of l) (date_of a) = date_of (fold_left Z.max l a).
Proof.
  revert a. induction l as [|y l IH]; intros a; [reflexivity|].
  simpl. rewrite <- IH. f_equal.
  destruct (Z.le_ge_cases a y) as [H|H]; pose proof (date_of_mono _ _ H).
  - rewrite !Z.max_r by assumption. reflexivity.
  - rewrite !Z.max_l by assumption. reflexivity.
Qed.

Lemma index_min_date (l : list Z) :
  index_min (map date_of l) = date_of <$> index_min l.
Proof. destruct l as [|a l]; [reflexivity|]. simpl. f_equal. apply fold_min_date. Qed.

Lemma index_max_date (l : list Z) :
  index_max (map date_of l) = date_of <$> index_max l.
Proof. destruct l as [|a l]; [reflexivity|]. simpl. f_equal. apply fold_max_date. Qed.

Section PipelineProperties.

Context {pandas : Pandas}.


Lemma sort_values_sorted (keyed : list (Z * Row)) :
  sorting_kernel argsort -> Sorted Z.le (map fst (sort_values keyed)).
Proof.
  intros H. unfold sort_values. rewrite take_keys.
  - apply (proj2 (H (map fst keyed))).
  - pose proof (kernel_in_range argsort (map fst keyed) H) as Hr.
    rewrite length_map in Hr. exact Hr.
Qed.




(** ** The stages, outcome and log *)

Lemma stage_index_found (f : Csv) (p : nat) (c : string) :
  detect_date_col (load f) = Some (p, c) ->
  stage_index f =
  (Ok (temporal_index p (load f)),
   [StSuccess (length (rows (load f))) (length (columns (load f)))]).
Proof. intros H. unfold stage_index. rewrite H. reflexivity. Qed.

Lemma stage_index_degraded (f : Csv) :
  detect_date_col (load f) = None ->
  stage_index f =
  (Ok (load f),
   [StSuccess (length (rows (load f))) (length (columns (load f)));
    StWarning NO_DATE_WARNING]).
Proof. intros H. unfold stage_index. rewrite H. reflexivity. Qed.

Lemma stage_select_outcome (df : DataFrame) (ui : UI) :
  let options := pollutant_cols df in
  let chosen := chosen_options options (take 3 options) (picked_pollutants ui) in
  stage_select df ui =
  match chosen with
  | [] => (Stopped, [SidebarHeader "Filter Options";
                     Multiselect options (take 3 options);
                     StWarning SELECT_WARNING])
  | _ => (Ok chosen, [SidebarHeader "Filter Options";
                      Multiselect options (take 3 options)])
  end.
Proof.
  unfold stage_select, multiselect. simpl.
  destruct (chosen_options _ _ _); reflexivity.
Qed.

Lemma chosen_options_elem (options default : list string)
    (picked : option (list string)) (c : string) :
  (forall d, d ∈ default -> d ∈ options) ->
  c ∈ chosen_options options default picked -> c ∈ options.
Proof.
  intros Hd. destruct picked as [l|]; simpl; [|apply Hd].
  intros H. apply list_elem_of_In, filter_In in H as [_ H].
  apply bool_decide_eq_true in H. exact H.
Qed.

Lemma pollutant_cols_elem (df : DataFrame) (c : string) :
  c ∈ pollutant_cols df <-> c ∈ columns df /\ Names.is_pollutant c = true.
Proof.
  unfold pollutant_cols. rewrite !list_elem_of_In. apply filter_In.
Qed.

Lemma stage_select_elem (df : DataFrame) (ui : UI) (sel : list string)
    (log : list Event) (c : string) :
  stage_select df ui = (Ok sel, log) -> c ∈ sel ->
  c ∈ columns df /\ Names.is_pollutant c = true.
Proof.
  rewrite stage_select_outcome. simpl.
  destruct (chosen_options _ _ _) as [|x l] eqn:E; [discriminate|].
  intros [= <- _] Hc. rewrite <- E in Hc.
  apply chosen_options_elem in Hc.
  - apply pollutant_cols_elem, Hc.
  - intros d Hd. exact (subseteq_take _ _ _ Hd).
Qed.

(** ** The temporal key is not a pollutant candidate *)

(** C10. When a temporal column is detected, line 40 makes it the index
    before line 44 classifies the columns: the stage that loads and indexes
    returns the indexed table, in which no column carries the name of the
    temporal key; so that name is neither a pollutant candidate nor, whatever
    the user picks, a selected pollutant, even when it contains one of the
    pollutant substrings. *)
Theorem temporal_key_not_a_candidate (f : Csv) (ui : UI) (p : nat) (c : string) :
  detect_date_col (load f) = Some (p, c) ->
  let df := temporal_index p (load f) in
  fst (stage_index f) = Ok df /\
  (c ∉ columns df) /\
  (c ∉ pollutant_cols df) /\
  forall sel log, stage_select df ui = (Ok sel, log) -> c ∉ sel.
Proof.
  intros Hfind df.
  assert (c ∉ columns df) as Hc.
  { apply list_find_Some in Hfind as (Hp & _ & _).
    unfold df, temporal_index. simpl.
    eapply NoDup_delete_lookup; [apply load_columns_NoDup | exact Hp]. }
  split; [rewrite (stage_index_found f p c Hfind); reflexivity|].
  split; [exact Hc|]. split.
  - intros H. apply pollutant_cols_elem in H as [H _]. contradiction.
  - intros sel log Hsel H. eapply stage_select_elem in H as [H _]; eauto.
Qed.

(** ** Halting without pollutant candidates *)

Lemma temporal_index_columns (p : nat) (df : DataFrame) (c : string) :
  c ∈ columns (temporal_index p df) -> c ∈ columns df.
Proof. unfold temporal_index. simpl. apply delete_elem. Qed.

(** C8. When no column name of the file contains one of "pm2", "pm10", "no2",
    "so2", "co", "o3" in lower case, the script stops at line 52: after the
    log of the loading and indexing stage come the sidebar header, the
    multiselect with no option and the request to select a pollutant, and
    nothing else, so neither date input nor the range filter is reached. *)
Theorem no_candidates_halts (f : Csv) (ui : UI) :
  (forall c, c ∈ header f -> Names.is_pollutant c = false) ->
  exists df pre,
    stage_index f = (Ok df, pre) /\
    pollutant_cols df = [] /\
    app f ui = (Stopped, pre ++ [SidebarHeader "Filter Options";
                                 Multiselect [] [];
                                 StWarning SELECT_WARNING]).
Proof.
  intros Hnone.
  assert (forall df, (forall c, c ∈ columns df -> c ∈ columns (load f)) ->
                     pollutant_cols df = []) as Hcols.
  { intros df Hsub. apply filter_all_false. intros c Hc.
    apply (load_no_candidates f Hnone), Hsub, Hc. }
  assert (forall df pre, stage_index f = (Ok df, pre) -> pollutant_cols df = [] ->
            app f ui = (Stopped, pre ++ [SidebarHeader "Filter Options";
                                         Multiselect [] [];
                                         StWarning SELECT_WARNING])) as Hrun.
  { intros df pre Hidx Hp. unfold app. rewrite Hidx. cbn [bind].
    rewrite stage_select_outcome. cbv zeta. rewrite Hp.
    rewrite chosen_options_none by reflexivity. reflexivity. }
  destruct (detect_date_col (load f)) as [[p c]|] eqn:Hfind.
  - pose proof (stage_index_found f p c Hfind) as Hidx.
    assert (pollutant_cols (temporal_index p (load f)) = []) as Hp.
    { apply Hcols. intros x Hx.
      exact (temporal_index_columns p (load f) x Hx). }
    eexists _, _. split; [exact Hidx|]. split; [exact Hp|]. exact (Hrun _ _ Hidx Hp).
  - pose proof (stage_index_degraded f Hfind) as Hidx.
    assert (pollutant_cols (load f) = []) as Hp.
    { apply Hcols. intros x Hx. exact Hx. }
    eexists _, _. split; [exact Hidx|]. split; [exact Hp|]. exact (Hrun _ _ Hidx Hp).
Qed.

(** ** Without a temporal column *)

Lemma load_datetime_index (f : Csv) : datetime_index (load f) = false.
Proof. reflexivity. Qed.

(** C5, as the code has it. Without a column whose lower-cased name contains
    "date" or "time", the indexing stage logs the warning and returns the
    loaded table as it is; then, as soon as a pollutant is selected, line 53
    asks the RangeIndex for the date of its minimum and the script ends in an
    AttributeError: no date input, no range filter, no resampling. *)
Theorem degraded_mode_raises (f : Csv) (ui : UI) :
  detect_date_col (load f) = None ->
  chosen_options (pollutant_cols (load f)) (take 3 (pollutant_cols (load f)))
                 (picked_pollutants ui) <> [] ->
  stage_index f =
    (Ok (load f),
     [StSuccess (length (rows (load f))) (length (columns (load f)));
      StWarning NO_DATE_WARNING]) /\
  app f ui =
    (Raised AttributeError,
     [StSuccess (length (rows (load f))) (length (columns (load f)));
      StWarning NO_DATE_WARNING;
      SidebarHeader "Filter Options";
      Multiselect (pollutant_cols (load f)) (take 3 (pollutant_cols (load f)))]).
Proof.
  intros Hfind Hsel. pose proof (stage_index_degraded f Hfind) as Hidx.
  split; [exact Hidx|].
  unfold app. rewrite Hidx. cbn [bind].
  rewrite stage_select_outcome. cbv zeta.
  destruct (chosen_options _ _ _) as [|x l]; [congruence|].
  cbn [bind]. unfold stage_range, index_date.
  rewrite load_datetime_index. reflexivity.
Qed.

(** ** Range filter *)

Lemma in_range_bool (start stop : option Z) (r : Row) :
  on_or_after start (label r) && on_or_before stop (label r) = true <->
  in_range start stop r.
Proof.
  unfold in_range, on_or_after, on_or_before. rewrite andb_true_iff. split.
  - destruct start as [s|], stop as [e|]; intros [H1 H2]; try discriminate.
    exists s, e. repeat split; lia.
  - intros (s & e & -> & -> & H). split; lia.
Qed.

Lemma range_filter_filter (start stop : option Z) (df : DataFrame) :
  rows (range_filter start stop df) =
  List.filter (fun r => on_or_after start (label r) && on_or_before stop (label r))
              (rows df).
Proof.
  unfold range_filter, range_mask. simpl.
  apply (loc_mask_both (fun r => on_or_after start (label r))
                       (fun r => on_or_before stop (label r))).
Qed.

Lemma first_day_nonempty (df : DataFrame) :
  rows df <> [] -> exists d, first_day df = Some d.
Proof.
  unfold first_day. destruct (rows df); [congruence|]. intros _. simpl. eauto.
Qed.

Lemma last_day_nonempty (df : DataFrame) :
  rows df <> [] -> exists d, last_day df = Some d.
Proof.
  unfold last_day. destruct (rows df); [congruence|]. intros _. simpl. eauto.
Qed.

(** On an index without a row the extrema are NaT, and the first date input
    raises. *)
Lemma stage_range_empty (df : DataFrame) (ui : UI) :
  datetime_index df = true -> rows df = [] ->
  stage_range df ui = (Raised ValueError, []).
Proof.
  intros Hdt Hnil. unfold stage_range, index_date, date_input.
  rewrite Hdt, Hnil. reflexivity.
Qed.

Lemma stage_range_outcome (df : DataFrame) (ui : UI) :
  datetime_index df = true ->
  rows df <> [] ->
  let start := chosen_date (first_day df) (picked_start ui) in
  let stop := chosen_date (last_day df) (picked_end ui) in
  stage_range df ui =
  match rows (range_filter start stop df) with
  | [] => (Stopped, [DateInput "Start Date" (first_day df);
                     DateInput "End Date" (last_day df);
                     StError EMPTY_RANGE_ERROR])
  | _ => (Ok (range_filter start stop df),
          [DateInput "Start Date" (first_day df);
           DateInput "End Date" (last_day df)])
  end.
Proof.
  intros Hdt Hrows.
  destruct (first_day_nonempty df Hrows) as [d1 H1].
  destruct (last_day_nonempty df Hrows) as [d2 H2].
  unfold stage_range, index_date, date_input. rewrite Hdt.
  cbn [bind emit ret app]. fold (first_day df). fold (last_day df).
  rewrite H1, H2. cbn [bind emit ret app].
  destruct (rows (range_filter _ _ df)); reflexivity.
Qed.

(** C6, as the code has it. When a temporal column is detected and no row
    has a readable timestamp in it, the indexed table has no row, so that no
    row's day lies in any interval; yet with a pollutant selected the script
    does not get to the range filter and its error message: line 53 hands
    NaT to the first date input, which raises [ValueError], and the run ends
    there, nothing logged after the multiselect. *)
Theorem unreadable_timestamps_raise (f : Csv) (ui : UI) (p : nat) (c : string)
    (sel : list string) (log : list Event) :
  detect_date_col (load f) = Some (p, c) ->
  let df := temporal_index p (load f) in
  rows df = [] ->
  stage_select df ui = (Ok sel, log) ->
  (forall start stop r, r ∈ rows df -> ~ in_range start stop r) /\
  app f ui =
  (Raised ValueError,
   StSuccess (length (rows (load f))) (length (columns (load f))) :: log).
Proof.
  intros Hfind df Hnil Hsel. split.
  - intros start stop r Hr. rewrite Hnil in Hr. apply elem_of_nil in Hr. contradiction.
  - unfold app. rewrite (stage_index_found f p c Hfind). cbn [bind].
    fold df. rewrite Hsel. cbn [bind].
    rewrite stage_range_empty by (reflexivity || exact Hnil).
    cbn [bind]. rewrite app_nil_r. reflexivity.
Qed.

(** X19. With a temporal column detected, at least one row with a readable
    timestamp, at least one pollutant selected, and no row of the indexed
    table whose day lies between the start and the end day the range filter
    runs with, the script stops at line 58: the log ends with the two date
    inputs and the error message, and neither the coercion nor the resampler
    nor anything after them runs. *)
Theorem empty_range_halts (f : Csv) (ui : UI) (p : nat) (c : string)
    (sel : list string) (log : list Event) :
  detect_date_col (load f) = Some (p, c) ->
  let df := temporal_index p (load f) in
  let start := chosen_date (first_day df) (picked_start ui) in
  let stop := chosen_date (last_day df) (picked_end ui) in
  rows df <> [] ->
  stage_select df ui = (Ok sel, log) ->
  (forall r, r ∈ rows df -> ~ in_range start stop r) ->
  app f ui =
  (Stopped,
   StSuccess (length (rows (load f))) (length (columns (load f))) ::
   log ++ [DateInput "Start Date" (first_day df);
           DateInput "End Date" (last_day df);
           StError EMPTY_RANGE_ERROR]).
Proof.
  intros Hfind df start stop Hrows Hsel Hnone.
  unfold app. rewrite (stage_index_found f p c Hfind). cbn [bind].
  fold df. rewrite Hsel. cbn [bind].
  rewrite stage_range_outcome by (reflexivity || exact Hrows). cbv zeta.
  fold start. fold stop.
  rewrite range_filter_filter, filter_all_false.
  - reflexivity.
  - intros r Hr. destruct (on_or_after _ _ && on_or_before _ _) eqn:E; [|reflexivity].
    apply in_range_bool in E. destruct (Hnone r Hr E).
Qed.

(** C2, as the code has it. Run with the closed interval of days from [start]
    to [stop], line 55 keeps the rows whose day lies in the interval, in their
    order, and no other row; it leaves the columns of the table as they are,
    whatever was selected. *)
Theorem range_filter_keeps_rows_in_range (start stop : Z) (df : DataFrame) :
  let out := range_filter (Some start) (Some stop) df in
  columns out = columns df /\
  rows out =
    List.filter (fun r => (start <=? date_of (label r)) && (date_of (label r) <=? stop))
                (rows df) /\
  (forall r, r ∈ rows out <-> r ∈ rows df /\ start <= date_of (label r) <= stop).
Proof.
  cbv zeta. split; [reflexivity|]. split.
  - apply range_filter_filter.
  - intros r. rewrite range_filter_filter, !list_elem_of_In, filter_In.
    simpl. rewrite andb_true_iff. split; intros [H1 H2]; (split; [exact H1|lia]).
Qed.

(** ** Numeric coercion and validity gate *)

Lemma selected_at_true (sel cols : list string) (j : nat) :
  selected_at sel cols j = true <-> exists c, cols !! j = Some c /\ c ∈ sel.
Proof.
  unfold selected_at. destruct (cols !! j) as [c|].
  - rewrite bool_decide_eq_true. split; [eauto|]. intros (c' & [= ->] & H). exact H.
  - split; [discriminate|]. intros (c & H & _). discriminate.
Qed.

Lemma coerce_row_lookup (sel cols : list string) (r : Row) (j : nat) :
  cells (coerce_row sel cols r) !! j =
  (fun c => if selected_at sel cols j then to_numeric c else c) <$> cells r !! j.
Proof. unfold coerce_row. simpl. apply list_lookup_imap. Qed.

Lemma has_valid_selected (sel cols : list string) (r : Row) :
  negb (all_selected_missing sel cols r) = true <->
  exists j c x, cols !! j = Some c /\ c ∈ sel /\
                cells r !! j = Some x /\ is_missing x = false.
Proof.
  rewrite negb_true_iff. unfold all_selected_missing.
  rewrite forallb_id_false. split.
  - intros [j Hj]. rewrite list_lookup_imap in Hj.
    destruct (cells r !! j) as [x|] eqn:Hx; [|discriminate].
    simpl in Hj. injection Hj as Hj. apply orb_false_iff in Hj as [Hs Hm].
    apply negb_false_iff, selected_at_true in Hs as (c & Hc & Hin).
    exists j, c, x. auto.
  - intros (j & c & x & Hc & Hin & Hx & Hm). exists j.
    rewrite list_lookup_imap, Hx. simpl. f_equal.
    apply orb_false_iff. split; [|exact Hm].
    apply negb_false_iff, selected_at_true. eauto.
Qed.

Lemma coerce_row_selected (sel cols : list string) (r : Row) (j : nat) (c : string) :
  cols !! j = Some c -> c ∈ sel ->
  cells (coerce_row sel cols r) !! j = to_numeric <$> cells r !! j.
Proof.
  intros Hc Hin. rewrite coerce_row_lookup.
  rewrite (proj2 (selected_at_true sel cols j)) by eauto. reflexivity.
Qed.

Lemma validity_gate_elem (sel : list string) (df : DataFrame) (r' : Row) :
  r' ∈ rows (validity_gate sel df) <->
  exists r, r ∈ rows df /\ r' = coerce_row sel (columns df) r /\
            exists j c x, columns df !! j = Some c /\ c ∈ sel /\
                          cells r' !! j = Some x /\ is_missing x = false.
Proof.
  unfold validity_gate, dropna_all, coerce_selected. simpl.
  rewrite list_elem_of_In, filter_In, in_map_iff, has_valid_selected. split.
  - intros [(r & <- & Hr) Hv]. exists r.
    split; [apply list_elem_of_In, Hr|]. split; [reflexivity | exact Hv].
  - intros (r & Hr & -> & Hv). split; [|exact Hv].
    exists r. split; [reflexivity | apply list_elem_of_In, Hr].
Qed.

(** C4. Line 60 turns a text token that does not read as a number into a
    missing value when its column is selected, and leaves the cells of the
    other columns, the labels and the shape of the rows as they are; a number
    in a selected column stays that number, and a text token that reads as a
    number becomes that number. Line 61 then keeps exactly the coerced rows
    that hold a non-missing value in some selected column: a row with a
    number, or with a token that reads as one, in some selected column is
    kept, and a row whose selected columns hold nothing but missing values
    and tokens that do not read as numbers is dropped. *)
Theorem coercion_and_validity_gate (sel : list string) (df : DataFrame) :
  let cols := columns df in
  (forall r j c s,
      cols !! j = Some c -> c ∈ sel -> cells r !! j = Some (Str s) ->
      to_numeric_token s = None ->
      cells (coerce_row sel cols r) !! j = Some NaN) /\
  (forall r j c,
      cols !! j = Some c -> c ∉ sel ->
      cells (coerce_row sel cols r) !! j = cells r !! j) /\
  (forall r, label (coerce_row sel cols r) = label r /\
             length (cells (coerce_row sel cols r)) = length (cells r)) /\
  columns (validity_gate sel df) = cols /\
  (forall r', r' ∈ rows (validity_gate sel df) <->
     exists r, r ∈ rows df /\ r' = coerce_row sel cols r /\
               exists j c x, cols !! j = Some c /\ c ∈ sel /\
                             cells r' !! j = Some x /\ is_missing x = false) /\
  (forall r j c q,
      cols !! j = Some c -> c ∈ sel -> cells r !! j = Some (Num q) ->
      cells (coerce_row sel cols r) !! j = Some (Num q)) /\
  (forall r j c s q,
      cols !! j = Some c -> c ∈ sel -> cells r !! j = Some (Str s) ->
      to_numeric_token s = Some q ->
      cells (coerce_row sel cols r) !! j = Some (Num q)) /\
  (forall r j c,
      r ∈ rows df -> cols !! j = Some c -> c ∈ sel ->
      ((exists q, cells r !! j = Some (Num q)) \/
       (exists s q, cells r !! j = Some (Str s) /\ to_numeric_token s = Some q)) ->
      coerce_row sel cols r ∈ rows (validity_gate sel df)) /\
  (forall r,
      (forall j c x, cols !! j = Some c -> c ∈ sel -> cells r !! j = Some x ->
                     x = NaN \/ exists s, x = Str s /\ to_numeric_token s = None) ->
      coerce_row sel cols r ∉ rows (validity_gate sel df)).
Proof.
  cbv zeta. split; [|split; [|split; [|split; [|split; [|split; [|split; [|split]]]]]]].
  - intros r j c s Hc Hin Hcell Htok.
    rewrite (coerce_row_selected _ _ _ _ _ Hc Hin), Hcell. simpl.
    rewrite Htok. reflexivity.
  - intros r j c Hc Hin. rewrite coerce_row_lookup.
    destruct (selected_at sel (columns df) j) eqn:E.
    + apply selected_at_true in E as (c' & Hc' & Hin'). congruence.
    + destruct (cells r !! j); reflexivity.
  - intros r. split; [reflexivity|]. unfold coerce_row. simpl. apply length_imap.
  - reflexivity.
  - apply validity_gate_elem.
  - intros r j c q Hc Hin Hcell.
    rewrite (coerce_row_selected _ _ _ _ _ Hc Hin), Hcell. reflexivity.
  - intros r j c s q Hc Hin Hcell Htok.
    rewrite (coerce_row_selected _ _ _ _ _ Hc Hin), Hcell. simpl.
    rewrite Htok. reflexivity.
  - intros r j c Hr Hc Hin Hvalid. apply validity_gate_elem.
    exists r. split; [exact Hr|]. split; [reflexivity|].
    destruct Hvalid as [[q Hcell]|(s & q & Hcell & Htok)]; exists j, c, (Num q);
      (split; [exact Hc|]; split; [exact Hin|]; split; [|reflexivity]);
      rewrite (coerce_row_selected _ _ _ _ _ Hc Hin), Hcell; simpl;
      rewrite ?Htok; reflexivity.
  - intros r Hall Hin. apply validity_gate_elem in Hin
      as (r0 & _ & _ & j & c & x & Hc & Hsel & Hx & Hm).
    rewrite (coerce_row_selected _ _ _ _ _ Hc Hsel) in Hx.
    destruct (cells r !! j) as [y|] eqn:Hy; [|discriminate].
    simpl in Hx. injection Hx as <-.
    destruct (Hall j c y Hc Hsel Hy) as [->|(s & -> & Htok)].
    + discriminate.
    + simpl in Hm. rewrite Htok in Hm. discriminate.
Qed.

(** ** Daily resampler *)

Lemma accumulate_slot (first : Z) (acc : list (list SumCount)) (r : Row) (k j : nat) :
  slot (accumulate first acc r) k j =
  (fun a => if decide (bin_of first r = k) then add_cell a (cells r !! j) else a)
    <$> slot acc k j.
Proof.
  unfold slot, accumulate. rewrite list_lookup_alter.
  destruct (decide (bin_of first r = k)) as [->|Hne].
  - destruct (acc !! k) as [bin|]; [|reflexivity].
    simpl. apply list_lookup_imap.
  - destruct (acc !! k) as [bin|]; [|reflexivity].
    destruct (bin !! j); reflexivity.
Qed.

Lemma accumulate_widths (first : Z) (rs : list Row) (acc : list (list SumCount)) (n : nat) :
  Forall (fun bin => length bin = n) acc ->
  Forall (fun bin => length bin = n) (fold_left (accumulate first) rs acc).
Proof.
  revert acc. induction rs as [|r rs IH]; intros acc H; [exact H|].
  simpl. apply IH. unfold accumulate. apply Forall_alter; [exact H|].
  intros bin _ Hb. rewrite length_imap. exact Hb.
Qed.

Lemma accumulate_length (first : Z) (rs : list Row) (acc : list (list SumCount)) :
  length (fold_left (accumulate first) rs acc) = length acc.
Proof.
  revert acc. induction rs as [|r rs IH]; intros acc; [reflexivity|].
  simpl. rewrite IH. unfold accumulate. apply length_alter.
Qed.

Lemma fold_accumulate_slot (first : Z) (rs : list Row) (acc : list (list SumCount))
    (k j : nat) (s : Q) (n : nat) :
  (forall r, r ∈ rs -> first <= date_of (label r)) ->
  slot acc k j = Some (s, n) ->
  slot (fold_left (accumulate first) rs acc) k j =
  Some (fold_left Qplus (day_values (first + Z.of_nat k) j rs) s,
        (n + length (day_values (first + Z.of_nat k) j rs))%nat).
Proof.
  revert acc s n. induction rs as [|r rs IH]; intros acc s n Hge Hslot.
  - simpl. rewrite Hslot, Nat.add_0_r. reflexivity.
  - assert (first <= date_of (label r)) as Hr by (apply Hge; left).
    assert (forall r', r' ∈ rs -> first <= date_of (label r')) as Hge'
      by (intros r' Hr'; apply Hge; right; exact Hr').
    pose proof (accumulate_slot first acc r k j) as Hstep.
    rewrite Hslot in Hstep. simpl in Hstep.
    cbn [fold_left].
    unfold day_values. cbn [omap list_omap]. fold (day_values (first + Z.of_nat k) j rs).
    unfold bin_of in Hstep.
    destruct (decide (Z.to_nat (date_of (label r) - first) = k)) as [Hk|Hk].
    + replace (date_of (label r) =? first + Z.of_nat k) with true
        by (symmetry; apply Z.eqb_eq; lia).
      destruct (cells r !! j) as [[q| |]|]; simpl in Hstep |- *;
        rewrite (IH _ _ _ Hge' Hstep); try reflexivity.
      f_equal. f_equal. lia.
    + replace (date_of (label r) =? first + Z.of_nat k) with false
        by (symmetry; apply Z.eqb_neq; lia).
      apply (IH _ _ _ Hge' Hstep).
Qed.

Lemma finish_daily_value (vals : list Q) :
  finish (Qsum vals, length vals) = daily_value vals.
Proof. destruct vals; reflexivity. Qed.

(** The row of the day [first + k], for every bin [k] of the span. *)
Lemma group_mean_lookup (ncols : nat) (first last : Z) (rs : list Row) (k : nat) :
  (forall r, r ∈ rs -> first <= date_of (label r)) ->
  (Z.of_nat k <= last - first) ->
  exists r, group_mean ncols first last rs !! k = Some r /\
            label r = (first + Z.of_nat k) * NS_PER_DAY /\
            length (cells r) = ncols /\
            forall j, (j < ncols)%nat ->
                      cells r !! j =
                      Some (daily_value (day_values (first + Z.of_nat k) j rs)).
Proof.
  intros Hge Hk. unfold group_mean.
  set (acc0 := replicate (Z.to_nat (last - first + 1)) (replicate ncols (0%Q, 0%nat))).
  set (acc := fold_left (accumulate first) rs acc0).
  assert (k < length acc)%nat as Hlen.
  { unfold acc. rewrite accumulate_length. unfold acc0. rewrite length_replicate. lia. }
  destruct (lookup_lt_is_Some_2 acc k Hlen) as [bin Hbin].
  assert (forall j, (j < ncols)%nat ->
            bin !! j = Some (Qsum (day_values (first + Z.of_nat k) j rs),
                             length (day_values (first + Z.of_nat k) j rs))) as Hcells.
  { intros j Hj.
    pose proof (fold_accumulate_slot first rs acc0 k j 0%Q 0%nat Hge) as H.
    fold acc in H. unfold slot at 2 in H. rewrite Hbin in H. apply H.
    unfold slot, acc0. rewrite lookup_replicate_2 by lia.
    apply lookup_replicate_2. exact Hj. }
  exists (mkRow ((first + Z.of_nat k) * NS_PER_DAY) (map finish bin)).
  split; [rewrite list_lookup_imap, Hbin; reflexivity|].
  cbn [label cells]. split; [reflexivity|]. split.
  - rewrite length_map.
    assert (Forall (fun bin => length bin = ncols) acc) as Hw.
    { apply accumulate_widths, Forall_replicate, length_replicate. }
    rewrite Forall_lookup in Hw. exact (Hw k bin Hbin).
  - intros j Hj. change (map finish bin) with (finish <$> bin).
    rewrite list_lookup_fmap, (Hcells j Hj). cbn [fmap option_fmap option_map].
    f_equal. apply finish_daily_value.
Qed.

Lemma days_of_rows (df : DataFrame) :
  index_min (map (fun r => date_of (label r)) (rows df)) = first_day df /\
  index_max (map (fun r => date_of (label r)) (rows df)) = last_day df.
Proof.
  unfold first_day, last_day.
  rewrite <- index_min_date, <- index_max_date, !map_map. split; reflexivity.
Qed.

Lemma rows_within_span (df : DataFrame) (first last : Z) (r : Row) :
  first_day df = Some first -> last_day df = Some last -> r ∈ rows df ->
  first <= date_of (label r) <= last.
Proof.
  intros Hf Hl Hr. destruct (days_of_rows df) as [Hmin Hmax].
  rewrite Hf in Hmin. rewrite Hl in Hmax.
  assert (date_of (label r) ∈ map (fun r => date_of (label r)) (rows df)) as Hin.
  { apply list_elem_of_In, (in_map (fun r => date_of (label r))), list_elem_of_In, Hr. }
  split; [eapply index_min_le | eapply index_max_ge]; eauto.
Qed.

Lemma daily_bins_empty (df : DataFrame) : rows df = [] -> daily_bins df = [].
Proof. intros H. unfold daily_bins. rewrite H. reflexivity. Qed.

Lemma daily_bins_span (df : DataFrame) (first last : Z) :
  first_day df = Some first -> last_day df = Some last ->
  daily_bins df = group_mean (length (columns df)) first last (rows df).
Proof.
  intros Hf Hl. destruct (days_of_rows df) as [Hmin Hmax].
  unfold daily_bins. rewrite Hmin, Hmax, Hf, Hl. reflexivity.
Qed.

Lemma group_mean_length (ncols : nat) (first last : Z) (rs : list Row) :
  length (group_mean ncols first last rs) = Z.to_nat (last - first + 1).
Proof.
  unfold group_mean. rewrite length_imap, accumulate_length. apply length_replicate.
Qed.

(** The day [d] of the span has its row, at position [d - first]. *)
Lemma daily_bins_lookup (df : DataFrame) (first last d : Z) :
  first_day df = Some first -> last_day df = Some last ->
  first <= d <= last ->
  exists r, daily_bins df !! Z.to_nat (d - first) = Some r /\
            label r = d * NS_PER_DAY /\
            length (cells r) = length (columns df) /\
            forall j, (j < length (columns df))%nat ->
                      cells r !! j = Some (daily_value (day_values d j (rows df))).
Proof.
  intros Hf Hl Hd. rewrite (daily_bins_span df first last Hf Hl).
  destruct (group_mean_lookup (length (columns df)) first last (rows df)
              (Z.to_nat (d - first))) as (r & Hr & Hlab & Hlen & Hcells).
  - intros r Hr. apply (rows_within_span df first last r Hf Hl Hr).
  - lia.
  - replace (first + Z.of_nat (Z.to_nat (d - first))) with d in * by lia.
    exists r. auto.
Qed.

Lemma daily_bins_labels (df : DataFrame) (first last : Z) :
  first_day df = Some first -> last_day df = Some last ->
  map label (daily_bins df) =
  map (fun d => d * NS_PER_DAY) (seqZ first (last - first + 1)).
Proof.
  intros Hf Hl. apply list_eq. intros i.
  change (map label (daily_bins df)) with (label <$> daily_bins df).
  change (map (fun d => d * NS_PER_DAY) (seqZ first (last - first + 1)))
    with ((fun d => d * NS_PER_DAY) <$> seqZ first (last - first + 1)).
  rewrite !list_lookup_fmap.
  destruct (decide (Z.of_nat i < last - first + 1)) as [Hi|Hi].
  - destruct (daily_bins_lookup df first last (first + Z.of_nat i) Hf Hl)
      as (r & Hr & Hlab & _); [lia|].
    replace (Z.to_nat (first + Z.of_nat i - first)) with i in Hr by lia.
    rewrite Hr, lookup_seqZ_lt by lia. simpl. rewrite Hlab. reflexivity.
  - rewrite lookup_seqZ_ge by lia.
    rewrite (lookup_ge_None_2 (daily_bins df)); [reflexivity|].
    rewrite (daily_bins_span df first last Hf Hl), group_mean_length. lia.
Qed.

Lemma span_of_rows (df : DataFrame) :
  rows df <> [] ->
  exists first last, first_day df = Some first /\ last_day df = Some last /\
                     first <= last.
Proof.
  intros Hne. unfold first_day, last_day.
  destruct (rows df) as [|r rs] eqn:E; [congruence|]. simpl.
  eexists _, _. split; [reflexivity|]. split; [reflexivity|].
  pose proof (fold_min_le (map label rs) (label r) (label r) ltac:(left)) as H1.
  pose proof (fold_max_ge (map label rs) (label r) (label r) ltac:(left)) as H2.
  etransitivity; apply date_of_mono; eassumption.
Qed.

(** The daily table is empty exactly when the resampled table is. *)
Lemma daily_bins_nil (df : DataFrame) : daily_bins df = [] <-> rows df = [].
Proof.
  split; [|apply daily_bins_empty].
  intros Hnil. destruct (rows df) as [|r rs] eqn:E; [reflexivity|]. exfalso.
  destruct (span_of_rows df) as (first & last & Hf & Hl & Hle); [congruence|].
  pose proof (group_mean_length (length (columns df)) first last (rows df)) as Hlen.
  rewrite <- (daily_bins_span df first last Hf Hl), Hnil in Hlen. simpl in Hlen. lia.
Qed.

Lemma to_numeric_not_text (c : Cell) : is_text (to_numeric c) = false.
Proof.
  destruct c as [q|s|]; simpl; try reflexivity.
  destruct (to_numeric_token s); reflexivity.
Qed.

Lemma selected_column_numeric (sel : list string) (df : DataFrame) (j : nat) (c : string) :
  columns df !! j = Some c -> c ∈ sel ->
  default false (object_dtype (validity_gate sel df) !! j) = false.
Proof.
  intros Hc Hin. unfold validity_gate, dropna_all, coerce_selected. cbn [object_dtype].
  rewrite list_lookup_imap.
  rewrite (proj2 (selected_at_true sel (columns df) j)) by eauto.
  destruct (object_dtype df !! j); reflexivity.
Qed.

Lemma object_columns_lookup (df : DataFrame) (j : nat) (c : string) :
  columns df !! j = Some c ->
  object_columns df !! j = Some (default false (object_dtype df !! j)).
Proof.
  intros Hc. unfold object_columns.
  change (map ?f ?l) with (f <$> l). rewrite list_lookup_fmap.
  rewrite (proj2 (lookup_seq 0 (length (columns df)) j j)); [reflexivity|].
  split; [reflexivity | eapply lookup_lt_Some; eauto].
Qed.


(** C1, as the code has it. On a validity-gated table with a DatetimeIndex
    in which no column of dtype object is left (or with a pandas whose [mean]
    leaves such columns out by itself), the resampler returns a table with
    one row for every calendar day from the first to the last day of its
    input, in order, also for the days in between that have no row; every
    selected pollutant is a column of it, and its value on a day is the
    arithmetic mean of the valid values that column holds in the rows of that
    day, or missing when there is none, as on a day without rows. An empty
    input gives an empty table. The mean is the exact quotient of the sum by
    the count. *)
Theorem daily_resampler (sel : list string) (df0 : DataFrame) :
  datetime_index df0 = true ->
  (numeric_only = true \/
   existsb id (object_columns (validity_gate sel df0)) = false) ->
  let df := validity_gate sel df0 in
  exists out,
    resample_mean df = Ok out /\
    (rows df = [] -> rows out = []) /\
    forall first last,
      first_day df = Some first -> last_day df = Some last ->
      map label (rows out) =
        map (fun d => d * NS_PER_DAY) (seqZ first (last - first + 1)) /\
      forall j c,
        columns df !! j = Some c -> c ∈ sel ->
        exists j',
          columns out !! j' = Some c /\
          forall d, first <= d <= last ->
            exists r, rows out !! Z.to_nat (d - first) = Some r /\
                      label r = d * NS_PER_DAY /\
                      cells r !! j' = Some (daily_value (day_values d j (rows df))).
Proof.
  intros Hdt Hpol df. unfold resample_mean.
  change (datetime_index df) with (datetime_index df0). rewrite Hdt. cbn [negb].
  destruct numeric_only eqn:Hno.
  - set (mask := map negb (object_columns df)).
    eexists. split; [reflexivity|]. cbn [rows columns]. split.
    { intros Hnil. rewrite (daily_bins_empty df Hnil). reflexivity. }
    intros first last Hf Hl. split.
    { rewrite map_map. cbn [label]. apply (daily_bins_labels df first last Hf Hl). }
    intros j c Hc Hin.
    assert (mask !! j = Some true) as Hmask.
    { unfold mask. change (map negb ?l) with (negb <$> l).
      rewrite list_lookup_fmap, (object_columns_lookup df j c Hc).
      unfold df. rewrite (selected_column_numeric sel df0 j c Hc Hin). reflexivity. }
    exists (rank mask j). split.
    { rewrite loc_mask_lookup by exact Hmask. exact Hc. }
    intros d Hd.
    destruct (daily_bins_lookup df first last d Hf Hl Hd) as (r & Hr & Hlab & _ & Hcells).
    exists (mkRow (label r) (loc_mask mask (cells r))).
    split; [|split; [exact Hlab|]].
    + change (map ?f ?l) with (f <$> l). rewrite list_lookup_fmap, Hr. reflexivity.
    + cbn [cells]. rewrite loc_mask_lookup by exact Hmask.
      apply Hcells. eapply lookup_lt_Some; eauto.
  - destruct Hpol as [Hpol|Hpol]; [discriminate|]. fold df in Hpol. rewrite Hpol.
    eexists. split; [reflexivity|]. cbn [rows columns]. split.
    { apply daily_bins_empty. }
    intros first last Hf Hl. split.
    { apply (daily_bins_labels df first last Hf Hl). }
    intros j c Hc Hin. exists j. split; [exact Hc|].
    intros d Hd.
    destruct (daily_bins_lookup df first last d Hf Hl Hd) as (r & Hr & Hlab & _ & Hcells).
    exists r. split; [exact Hr|]. split; [exact Hlab|].
    apply Hcells. eapply lookup_lt_Some; eauto.
Qed.

(** ** Sparse range warning *)

Lemma resample_mean_nil (df daily : DataFrame) :
  resample_mean df = Ok daily -> (rows daily = [] <-> rows df = []).
Proof.
  unfold resample_mean. destruct (datetime_index df); [|discriminate].
  cbn [negb]. destruct numeric_only.
  - intros [= <-]. cbn [rows]. rewrite <- daily_bins_nil.
    destruct (daily_bins df); simpl; split; congruence.
  - destruct (existsb id (object_columns df)); [discriminate|].
    intros [= <-]. cbn [rows]. apply daily_bins_nil.
Qed.

(** C9, as the code has it. Whenever the resampler returns a daily table, the
    script goes on to line 65 with the working table and that daily table;
    the warning about a short range is logged when the daily table has fewer
    than 7 rows and is not logged when it has 7 or more. The daily table is
    non-empty as soon as one row passed the validity gate. *)
Theorem sparse_range_warning (sel : list string) (df daily : DataFrame) :
  resample_mean (validity_gate sel df) = Ok daily ->
  stage_daily sel df =
    (Ok (validity_gate sel df, daily),
     StMarkdown "---" ::
     (if (length (rows daily) <? 7)%nat then [StWarning SPARSE_WARNING] else []) ++
     [StHeader "Statistical Overview of Air Quality"]) /\
  (rows (validity_gate sel df) <> [] -> rows daily <> []).
Proof.
  intros H. split.
  - unfold stage_daily. rewrite H. cbn [lift bind emit ret app].
    destruct (length (rows daily) <? 7)%nat; reflexivity.
  - intros Hne Hnil. apply Hne, (resample_mean_nil _ _ H), Hnil.
Qed.

End PipelineProperties.

(** * The properties on concrete tables *)

(** ** The sorting kernels of the examples return the sorted order *)

Lemma insert_index_perm (before : Z -> Z -> bool) (ks : list Z) (i : nat) (l : list nat) :
  Demo.insert_index before ks i l ≡ₚ i :: l.
Proof.
  induction l as [|j l IH]; simpl; [reflexivity|].
  destruct (before _ _); [reflexivity|].
  rewrite IH. apply perm_swap.
Qed.

Lemma insert_index_sorted (before : Z -> Z -> bool) (ks : list Z) (i : nat) (l : list nat) :
  (forall a b, before a b = true -> a <= b) ->
  (forall a b, before a b = false -> b <= a) ->
  Sorted Z.le (map (fun i => nth i ks 0) l) ->
  Sorted Z.le (map (fun i => nth i ks 0) (Demo.insert_index before ks i l)).
Proof.
  intros Ht Hf. induction l as [|j l IH]; intros Hs; simpl.
  - repeat constructor.
  - destruct (before (nth i ks 0) (nth j ks 0)) eqn:E; simpl.
    + constructor; [exact Hs|]. constructor. apply Ht, E.
    + simpl in Hs. apply Sorted_inv in Hs as [Hs Hhd].
      constructor; [apply IH, Hs|].
      destruct l as [|j' l]; simpl.
      * constructor. apply Hf, E.
      * destruct (before (nth i ks 0) (nth j' ks 0)); simpl; constructor.
        -- apply Hf, E.
        -- inversion Hhd; assumption.
Qed.

Lemma argsort_with_lawful (before : Z -> Z -> bool) :
  (forall a b, before a b = true -> a <= b) ->
  (forall a b, before a b = false -> b <= a) ->
  sorting_kernel (Demo.argsort_with before).
Proof.
  intros Ht Hf ks. unfold Demo.argsort_with.
  generalize (seq 0 (length ks)). intros l. split.
  - induction l as [|i l IH]; simpl; [reflexivity|].
    rewrite insert_index_perm, IH. reflexivity.
  - induction l as [|i l IH]; simpl; [constructor|].
    apply insert_index_sorted; assumption.
Qed.

Lemma argsort_stable_lawful : sorting_kernel Demo.argsort_stable.
Proof. apply argsort_with_lawful; intros a b H; lia. Qed.

(** The default kernel on a few keys: sixteen equal keys go through the
    insertion sort and stay in place, seventeen are split around their
    median. *)
Example numpy_argsort_keys :
  NumPy.argsort [30; 10; 20; 10] = [1; 3; 2; 0]%nat /\
  NumPy.argsort (replicate 16 7) = seq 0 16 /\
  NumPy.argsort (replicate 17 7) =
    [0; 14; 13; 12; 11; 10; 9; 15; 8; 6; 5; 4; 3; 2; 1; 7; 16]%nat.
Proof. repeat split; vm_compute; reflexivity. Qed.

(** ** Loader *)

Example load_pm_twice :
  load Samples.pm_twice =
  {| columns := ["Date"; "PM2.5"; "NO2"; "PM2.5.1"];
     object_dtype := [true; false; false; false];
     datetime_index := false;
     rows := [ mkRow 0 [Str "0"; Num 50; Num 30; Num 99];
               mkRow 1 [Str "24"; Num 60; Num 40; Num 98] ] |}.
Proof. reflexivity. Qed.

Example dedup_names_taken :
  dedup_names ["a"; "a.1"; "a"; "a"] = ["a"; "a.1"; "a.1.1"; "a.2"].
Proof. reflexivity. Qed.

Lemma loader_keeps_every_column_witness :
  NoDup (columns (read_csv Samples.pm_twice)) /\
  columns (load Samples.pm_twice) = columns (read_csv Samples.pm_twice) /\
  length (columns (load Samples.pm_twice)) = length (header Samples.pm_twice) /\
  (exists sfx, columns (load Samples.pm_twice) !! 3%nat = Some (String.append "PM2.5" sfx) /\
               renaming_suffix sfx = true) /\
  column_at 3 (load Samples.pm_twice) = column_at 3 (read_csv Samples.pm_twice).
Proof.
  apply (loader_keeps_every_column Samples.pm_twice 3 "PM2.5"). reflexivity.
Defined.

(** ** Temporal indexer *)

Example index_shuffled :
  temporal_index (pandas := demo Demo.argsort_stable true) 1 (load Samples.shuffled) =
  {| columns := ["Station"; "pm25"];
     object_dtype := [true; false];
     datetime_index := true;
     rows := [ mkRow (2 * Demo.NS_PER_HOUR) [Str "B"; Num 1];
               mkRow (26 * Demo.NS_PER_HOUR) [Str "B"; Num 2];
               mkRow (30 * Demo.NS_PER_HOUR) [Str "A"; Num 3] ] |}.
Proof. reflexivity. Qed.


Example index_two_ties :
  rows (temporal_index (pandas := demo NumPy.argsort true) 0 (load Samples.ties)) =
  [ mkRow (7 * Demo.NS_PER_HOUR) [Num 1]; mkRow (7 * Demo.NS_PER_HOUR) [Num 2] ].
Proof. reflexivity. Qed.

Example index_seventeen_ties :
  map cells (rows (temporal_index (pandas := demo NumPy.argsort true) 0
                     (load Samples.seventeen_ties))) =
  map (fun k => [Num (inject_Z k)]) [1; 15; 14; 13; 12; 11; 10; 16; 9; 7; 6; 5; 4; 3; 2; 8; 17].
Proof. vm_compute. reflexivity. Qed.


(** ** Names *)

Example lower_mixed : Names.lower "PM2.5 Date" = "pm2.5 date".
Proof. reflexivity. Qed.

Example temporal_and_pollutant :
  Names.is_temporal "Recorded Date" = true /\ Names.is_pollutant "Recorded Date" = true.
Proof. split; reflexivity. Qed.

Example humidity_is_neither :
  Names.is_temporal "Humidity" = false /\ Names.is_pollutant "Humidity" = false.
Proof. split; reflexivity. Qed.

(** ** The pipeline on the scenario of the specification *)

Example scenario_run :
  app (pandas := demo Demo.argsort_stable false) Samples.scenario Samples.defaults =
  (Ok ({| columns := ["pm25"; "no2"];
          object_dtype := [false; false];
          datetime_index := true;
          rows := [ mkRow 0 [Num 50; Num 30];
                    mkRow (12 * Demo.NS_PER_HOUR) [Num 70; NaN];
                    mkRow (24 * Demo.NS_PER_HOUR) [Num 60; Num 40] ] |},
       {| columns := ["pm25"; "no2"];
          object_dtype := [false; false];
          datetime_index := true;
          rows := [ mkRow 0 [Num 60; Num 30];
                    mkRow NS_PER_DAY [Num 60; Num 40] ] |}),
   [StSuccess 3 3;
    SidebarHeader "Filter Options";
    Multiselect ["pm25"; "no2"] ["pm25"; "no2"];
    DateInput "Start Date" (Some 0);
    DateInput "End Date" (Some 1);
    StMarkdown "---";
    StWarning SPARSE_WARNING;
    StHeader "Statistical Overview of Air Quality"]).
Proof. vm_compute. reflexivity. Qed.

(** ** The temporal key is not a pollutant candidate *)

Lemma temporal_key_not_a_candidate_witness :
  let pandas := demo Demo.argsort_stable true in
  let df := temporal_index 0 (load Samples.recorded) in
  fst (stage_index Samples.recorded) = Ok df /\
  ("Recorded Date" ∉ columns df) /\
  ("Recorded Date" ∉ pollutant_cols df) /\
  forall sel log, stage_select df Samples.defaults = (Ok sel, log) ->
                  "Recorded Date" ∉ sel.
Proof.
  apply (temporal_key_not_a_candidate (pandas := demo Demo.argsort_stable true)
           Samples.recorded Samples.defaults 0 "Recorded Date").
  reflexivity.
Defined.

(** ** Halting without pollutant candidates *)

Lemma no_candidates_halts_witness :
  let pandas := demo Demo.argsort_stable true in
  exists df pre,
    stage_index Samples.no_pollutant = (Ok df, pre) /\
    pollutant_cols df = [] /\
    app Samples.no_pollutant Samples.defaults =
      (Stopped, pre ++ [SidebarHeader "Filter Options";
                        Multiselect [] [];
                        StWarning SELECT_WARNING]).
Proof.
  apply (no_candidates_halts (pandas := demo Demo.argsort_stable true)
           Samples.no_pollutant Samples.defaults).
  intros c Hc. simpl in Hc.
  apply elem_of_cons in Hc as [->|Hc]; [reflexivity|].
  apply elem_of_cons in Hc as [->|Hc]; [reflexivity|].
  apply elem_of_nil in Hc. contradiction.
Defined.

(** ** Without a temporal column *)

Lemma degraded_mode_raises_witness :
  let pandas := demo Demo.argsort_stable true in
  stage_index Samples.no_date =
    (Ok (load Samples.no_date), [StSuccess 2 2; StWarning NO_DATE_WARNING]) /\
  app Samples.no_date Samples.defaults =
    (Raised AttributeError,
     [StSuccess 2 2;
      StWarning NO_DATE_WARNING;
      SidebarHeader "Filter Options";
      Multiselect ["PM2.5"; "NO2"] ["PM2.5"; "NO2"]]).
Proof.
  apply (degraded_mode_raises (pandas := demo Demo.argsort_stable true)
           Samples.no_date Samples.defaults).
  - reflexivity.
  - discriminate.
Defined.

(** ** Empty range *)

Lemma empty_range_halts_witness :
  app (pandas := demo Demo.argsort_stable true) Samples.scenario Samples.days_10_to_20 =
  (Stopped,
   [StSuccess 3 3;
    SidebarHeader "Filter Options";
    Multiselect ["pm25"; "no2"] ["pm25"; "no2"];
    DateInput "Start Date" (Some 0);
    DateInput "End Date" (Some 1);
    StError EMPTY_RANGE_ERROR]).
Proof.
  apply (empty_range_halts (pandas := demo Demo.argsort_stable true)
           Samples.scenario Samples.days_10_to_20 0 "date" ["pm25"; "no2"]
           [SidebarHeader "Filter Options";
            Multiselect ["pm25"; "no2"] ["pm25"; "no2"]]).
  - reflexivity.
  - vm_compute. discriminate.
  - reflexivity.
  - intros r Hr (s & e & [= <-] & [= <-] & Hs & He).
    apply list_elem_of_In in Hr. simpl in Hr.
    destruct Hr as [<-|[<-|[<-|[]]]]; vm_compute in Hs; apply Hs; reflexivity.
Defined.

(** ** No readable timestamp *)

Lemma unreadable_timestamps_raise_witness :
  (forall start stop r,
      r ∈ rows (temporal_index (pandas := demo NumPy.argsort false) 0
                  (load Samples.unreadable)) ->
      ~ in_range start stop r) /\
  app (pandas := demo NumPy.argsort false) Samples.unreadable Samples.defaults =
  (Raised ValueError,
   [StSuccess 2 2;
    SidebarHeader "Filter Options";
    Multiselect ["pm25"] ["pm25"]]).
Proof.
  apply (unreadable_timestamps_raise (pandas := demo NumPy.argsort false)
           Samples.unreadable Samples.defaults 0 "date" ["pm25"]
           [SidebarHeader "Filter Options"; Multiselect ["pm25"] ["pm25"]]);
    reflexivity.
Defined.

(** ** Range filter *)

Example range_filter_humid :
  range_filter (Some 1) (Some 2)
    (temporal_index (pandas := demo Demo.argsort_stable true) 0 (load Samples.humid)) =
  {| columns := ["pm25"; "Humidity"];
     object_dtype := [false; false];
     datetime_index := true;
     rows := [ mkRow (30 * Demo.NS_PER_HOUR) [Num 70; Num 45] ] |}.
Proof. vm_compute. reflexivity. Qed.

(** C2, as the specification states it: after the range filter only the
    selected pollutants are columns. With the selection left at its default,
    "pm25", the filtered table of the sample still has the column
    "Humidity". *)
Lemma range_filter_keeps_other_columns :
  let pandas := demo Demo.argsort_stable true in
  let df := temporal_index 0 (load Samples.humid) in
  ~ (forall sel log out log',
       stage_select df Samples.defaults = (Ok sel, log) ->
       stage_range df Samples.defaults = (Ok out, log') ->
       only_selected_columns sel out).
Proof.
  intros pandas df H.
  specialize (H _ _ _ _ eq_refl eq_refl "Humidity").
  assert ("Humidity" ∈ ["pm25"]) as Hin.
  { apply H. vm_compute. right. left. }
  apply elem_of_cons in Hin as [Hin|Hin]; [discriminate|].
  apply elem_of_nil in Hin. exact Hin.
Qed.

(** ** Daily resampler *)

Example resample_gap :
  resample_mean (pandas := demo Demo.argsort_stable false)
    (validity_gate (pandas := demo Demo.argsort_stable false) ["pm25"]
       (temporal_index (pandas := demo Demo.argsort_stable false) 0 (load Samples.gap))) =
  Ok {| columns := ["pm25"];
        object_dtype := [false];
        datetime_index := true;
        rows := [ mkRow 0 [Num 50];
                  mkRow NS_PER_DAY [NaN];
                  mkRow (2 * NS_PER_DAY) [Num 60] ] |}.
Proof. vm_compute. reflexivity. Qed.

Lemma daily_resampler_witness :
  let pandas := demo NumPy.argsort false in
  let sel := ["pm25"; "no2"] in
  let df := validity_gate sel (temporal_index 0 (load Samples.scenario)) in
  exists out,
    resample_mean df = Ok out /\
    (rows df = [] -> rows out = []) /\
    forall first last,
      first_day df = Some first -> last_day df = Some last ->
      map label (rows out) =
        map (fun d => d * NS_PER_DAY) (seqZ first (last - first + 1)) /\
      forall j c,
        columns df !! j = Some c -> c ∈ sel ->
        exists j',
          columns out !! j' = Some c /\
          forall d, first <= d <= last ->
            exists r, rows out !! Z.to_nat (d - first) = Some r /\
                      label r = d * NS_PER_DAY /\
                      cells r !! j' = Some (daily_value (day_values d j (rows df))).
Proof.
  apply (daily_resampler (pandas := demo NumPy.argsort false)
           ["pm25"; "no2"]
           (temporal_index (pandas := demo NumPy.argsort false) 0
                           (load Samples.scenario))).
  - reflexivity.
  - right. vm_compute. reflexivity.
Defined.

(** C1, as the specification states it: a day without contributing rows has
    no row in the daily table. With readings on day 0 and on day 2 only, the
    daily table has a row for day 1. *)
Lemma daily_resampler_fills_gaps :
  let pandas := demo Demo.argsort_stable true in
  let df := validity_gate ["pm25"] (temporal_index 0 (load Samples.gap)) in
  ~ (forall out, resample_mean df = Ok out -> every_day_has_rows df out).
Proof.
  intros pandas df H.
  destruct (H _ eq_refl (mkRow NS_PER_DAY [NaN])) as (r0 & Hin & Hd).
  { vm_compute. right. left. }
  apply list_elem_of_In in Hin. vm_compute in Hin.
  destruct Hin as [<-|[<-|[]]]; vm_compute in Hd; discriminate Hd.
Qed.

(** ** Sparse range warning *)

Lemma sparse_range_warning_witness :
  let pandas := demo Demo.argsort_stable true in
  let sel := ["pm25"; "no2"] in
  let df := temporal_index 0 (load Samples.scenario) in
  let daily := {| columns := ["pm25"; "no2"];
                  object_dtype := [false; false];
                  datetime_index := true;
                  rows := [ mkRow 0 [Num 60; Num 30];
                            mkRow NS_PER_DAY [Num 60; Num 40] ] |} in
  stage_daily sel df =
    (Ok (validity_gate sel df, daily),
     StMarkdown "---" ::
     (if (length (rows daily) <? 7)%nat then [StWarning SPARSE_WARNING] else []) ++
     [StHeader "Statistical Overview of Air Quality"]) /\
  (rows (validity_gate sel df) <> [] -> rows daily <> []).
Proof.
  apply (sparse_range_warning (pandas := demo Demo.argsort_stable true)).
  vm_compute. reflexivity.
Defined.

Example all_invalid_run :
  app (pandas := demo Demo.argsort_stable true) Samples.all_invalid Samples.defaults =
  (Ok ({| columns := ["pm25"]; object_dtype := [false]; datetime_index := true; rows := [] |},
       {| columns := ["pm25"]; object_dtype := [false]; datetime_index := true; rows := [] |}),
   [StSuccess 1 2;
    SidebarHeader "Filter Options";
    Multiselect ["pm25"] ["pm25"];
    DateInput "Start Date" (Some 0);
    DateInput "End Date" (Some 0);
    StMarkdown "---";
    StWarning SPARSE_WARNING;
    StHeader "Statistical Overview of Air Quality"]).
Proof. vm_compute. reflexivity. Qed.

(** C9, as the specification states it: a run whose daily table has fewer
    than 7 days holds a non-empty daily table. When the only reading in range
    is not a number, the validity gate drops its row and the run goes on, with
    the warning, on an empty daily table. *)
Lemma sparse_run_may_be_empty :
  ~ sparse_run_is_warned_and_non_empty (pandas := demo Demo.argsort_stable true)
      Samples.all_invalid Samples.defaults.
Proof.
  intros H. destruct (H _ _ _ all_invalid_run) as [_ Hne].
  - simpl. lia.
  - apply Hne. reflexivity.
Qed.

(** * Further properties of the code *)

(** ** Column-name heuristics (lines 33 and 44) *)

(** X1. A column name counts as temporal exactly when its lower-cased form
    has "date" or "time" as a substring, and as a pollutant candidate exactly
    when its lower-cased form has one of "pm2", "pm10", "no2", "so2", "co",
    "o3" as a substring, anywhere in the name. *)
Theorem heuristics_are_substring_tests (c : string) :
  (Names.is_temporal c = true <->
   exists key pre post, key ∈ ["date"; "time"] /\
     Names.lower c = String.append pre (String.append key post)) /\
  (Names.is_pollutant c = true <->
   exists key pre post, key ∈ Names.POLLUTANT_KEYS /\
     Names.lower c = String.append pre (String.append key post)).
Proof. split; [apply is_temporal_substring | apply is_pollutant_substring]. Qed.

(** X2. The heuristics do not see the case of ASCII letters: two names with
    the same lower-cased form are classified alike, a name is classified like
    its lower-cased form, and wrapping a name that matches in any prefix and
    suffix keeps it matching. *)
Theorem heuristics_ignore_case_and_context (c pre post : string) :
  Names.is_temporal (Names.lower c) = Names.is_temporal c /\
  Names.is_pollutant (Names.lower c) = Names.is_pollutant c /\
  (Names.is_temporal c = true ->
   Names.is_temporal (String.append pre (String.append c post)) = true) /\
  (Names.is_pollutant c = true ->
   Names.is_pollutant (String.append pre (String.append c post)) = true).
Proof.
  split; [unfold Names.is_temporal; rewrite lower_idempotent; reflexivity|].
  split; [unfold Names.is_pollutant; rewrite lower_idempotent; reflexivity|].
  assert (forall key pre' post',
            Names.lower c = String.append pre' (String.append key post') ->
            Names.lower (String.append pre (String.append c post)) =
            String.append (String.append (Names.lower pre) pre')
              (String.append key (String.append post' (Names.lower post)))) as Hwrap.
  { intros key pre' post' H. rewrite !lower_append, H, !append_assoc. reflexivity. }
  split.
  - intros H. apply is_temporal_substring in H as (key & p & q & Hk & H).
    apply is_temporal_substring. exists key. eexists _, _.
    split; [exact Hk | apply Hwrap, H].
  - intros H. apply is_pollutant_substring in H as (key & p & q & Hk & H).
    apply is_pollutant_substring. exists key. eexists _, _.
    split; [exact Hk | apply Hwrap, H].
Qed.

(** ** Table loader (lines 28-29) *)

Lemma loc_mask_length_le {A B : Type} (mask : list bool) (l : list A) (l' : list B) :
  (length mask <= length l')%nat ->
  (length (loc_mask mask l) <= length (loc_mask mask l'))%nat.
Proof.
  revert l l'. induction mask as [|b mask IH]; intros l l' Hlen; [simpl; lia|].
  destruct l' as [|y l']; [simpl in Hlen; lia|]. simpl in Hlen.
  destruct l as [|x l]; [simpl; lia|].
  specialize (IH l l' ltac:(lia)). destruct b; simpl; lia.
Qed.

Lemma duplicated_length (names : list string) : length (duplicated names) = length names.
Proof.
  unfold duplicated. generalize (@nil string).
  induction names as [|n ns IH]; intros seen; simpl; [reflexivity|].
  rewrite IH. reflexivity.
Qed.

Lemma drop_duplicate_columns_distinct (df : DataFrame) :
  NoDup (columns df) ->
  (length (object_dtype df) <= length (columns df))%nat ->
  Forall (fun r => (length (cells r) <= length (columns df))%nat) (rows df) ->
  drop_duplicate_columns df = df.
Proof.
  intros Hnd Hdt Hwide. destruct df as [cols ot dt rs]. simpl in *.
  unfold drop_duplicate_columns. simpl.
  rewrite (keep_all_distinct cols Hnd).
  rewrite !loc_mask_all, firstn_all, take_ge by exact Hdt. f_equal.
  induction Hwide as [|r rs Hr _ IH]; [reflexivity|].
  simpl. rewrite IH. f_equal.
  rewrite loc_mask_all, take_ge by exact Hr. destruct r; reflexivity.
Qed.




(** X4. Dropping the duplicated columns is idempotent on every table: a
    second pass of line 29 changes nothing, since the first leaves pairwise
    distinct names. *)
Theorem drop_duplicate_columns_idempotent (df : DataFrame) :
  drop_duplicate_columns (drop_duplicate_columns df) = drop_duplicate_columns df.
Proof.
  apply drop_duplicate_columns_distinct.
  - apply (kept_names [] (columns df)).
  - unfold drop_duplicate_columns. cbn [object_dtype columns].
    apply loc_mask_length_le. rewrite length_map, duplicated_length. lia.
  - unfold drop_duplicate_columns. cbn [rows columns].
    apply Forall_forall. intros r Hr.
    apply list_elem_of_In, in_map_iff in Hr as (r0 & <- & _). cbn [cells].
    apply loc_mask_length_le. rewrite length_map, duplicated_length. lia.
Qed.

(** X20. Line 29 on a table that does have repeated column names, whatever
    made it: every name of the table is the name of exactly one column of the
    result (so the columns carry pairwise distinct, unchanged names), and
    that column holds, row by row, the cells of the left-most column of that
    name; the number of rows is unchanged. *)
Theorem drop_duplicate_columns_keeps_first (df : DataFrame) (name : string) (i : nat) :
  columns df !! i = Some name ->
  (forall i', (i' < i)%nat -> columns df !! i' <> Some name) ->
  let out := drop_duplicate_columns df in
  NoDup (columns out) /\
  (forall n, n ∈ columns out <-> n ∈ columns df) /\
  length (rows out) = length (rows df) /\
  exists j, columns out !! j = Some name /\
            (forall j', columns out !! j' = Some name -> j' = j) /\
            column_at j out = column_at i df.
Proof.
  intros Hi Hfirst out.
  assert (NoDup (columns out)) as Hnd by apply (kept_names [] (columns df)).
  split; [exact Hnd|].
  split.
  { intros n. unfold out, drop_duplicate_columns, duplicated. cbn [columns].
    rewrite (proj2 (kept_names [] (columns df))). split; [tauto|].
    intros H. split; [exact H | apply not_elem_of_nil]. }
  split.
  { unfold out, drop_duplicate_columns. cbn [rows]. apply length_map. }
  set (keep := map negb (duplicated (columns df))).
  assert (keep !! i = Some true) as Hkeep.
  { destruct (duplicated_from_lookup [] (columns df) i name Hi) as (b & Hb & Hiff).
    unfold keep, duplicated. rewrite list_lookup_fmap, Hb. simpl.
    destruct b; [|reflexivity]. exfalso.
    destruct (proj1 Hiff eq_refl) as [H|H].
    - apply elem_of_nil in H. exact H.
    - apply list_elem_of_lookup in H as [i' Hi'].
      pose proof (lookup_lt_Some _ _ _ Hi') as Hlt.
      rewrite length_take in Hlt.
      rewrite lookup_take_lt in Hi' by lia.
      apply (Hfirst i'); [lia | exact Hi']. }
  exists (rank keep i).
  assert (columns out !! rank keep i = Some name) as Hj.
  { unfold out, drop_duplicate_columns. cbn [columns]. fold keep.
    rewrite loc_mask_lookup by exact Hkeep. exact Hi. }
  split; [exact Hj|]. split.
  - intros j' Hj'. eapply NoDup_lookup; eauto.
  - unfold column_at, out, drop_duplicate_columns. cbn [rows]. fold keep.
    rewrite map_map. apply map_ext. intros r. simpl.
    apply loc_mask_lookup. exact Hkeep.
Qed.

Lemma drop_duplicate_columns_keeps_first_witness :
  let out := drop_duplicate_columns Samples.repeated in
  NoDup (columns out) /\
  (forall n, n ∈ columns out <-> n ∈ columns Samples.repeated) /\
  length (rows out) = length (rows Samples.repeated) /\
  exists j, columns out !! j = Some "PM2.5" /\
            (forall j', columns out !! j' = Some "PM2.5" -> j' = j) /\
            column_at j out = column_at 1 Samples.repeated.
Proof.
  apply (drop_duplicate_columns_keeps_first Samples.repeated "PM2.5" 1).
  - reflexivity.
  - intros i' Hi'. assert (i' = 0%nat) as -> by lia. discriminate.
Defined.

Example drop_duplicate_columns_repeated :
  drop_duplicate_columns Samples.repeated =
  {| columns := ["Date"; "PM2.5"; "NO2"];
     object_dtype := [true; false; false];
     datetime_index := false;
     rows := [ mkRow 0 [Str "0"; Num 50; Num 30];
               mkRow 1 [Str "24"; Num 60; Num 40] ] |}.
Proof. reflexivity. Qed.


Lemma filter_all_true {A : Type} (f : A -> bool) (l : list A) :
  (forall x, x ∈ l -> f x = true) -> List.filter f l = l.
Proof.
  induction l as [|x l IH]; intros H; [reflexivity|].
  simpl. rewrite (H x) by (left; reflexivity). f_equal.
  apply IH. intros y Hy. apply H. right. exact Hy.
Qed.

Section FurtherPipeline.

Context {pandas : Pandas}.

(** ** Range filter (lines 53-58) *)

Lemma range_filter_span (df : DataFrame) :
  range_filter (first_day df) (last_day df) df = df.
Proof.
  destruct df as [cols ot dt rs]. unfold range_filter. cbn [columns datetime_index].
  f_equal. set (df := {| columns := cols; object_dtype := ot; datetime_index := dt; rows := rs |}).
  change (rows (range_filter (first_day df) (last_day df) df) = rows df).
  rewrite range_filter_filter. apply filter_all_true.
  intros r Hr. apply in_range_bool.
  destruct (span_of_rows df) as (first & last & Hf & Hl & _).
  { intros Hnil. rewrite Hnil in Hr. apply elem_of_nil in Hr. exact Hr. }
  exists first, last. split; [exact Hf|]. split; [exact Hl|].
  apply (rows_within_span df first last r Hf Hl Hr).
Qed.

(** X5. Run with the defaults of the two date inputs, the first and the last
    day of the index, the range filter returns the table it was given: no row
    is lost, whatever the table. *)
Theorem default_range_keeps_table (df : DataFrame) :
  range_filter (first_day df) (last_day df) df = df.
Proof. apply range_filter_span. Qed.

(** X6. A start day after the end day leaves no row: on a table with a
    DatetimeIndex and at least one row (so that the date inputs have their
    defaults) the script shows the two date inputs and stops at line 58 with
    the "no data" error, whatever the rows hold. *)
Theorem inverted_range_halts (df : DataFrame) (ui : UI) (s e : Z) :
  datetime_index df = true ->
  rows df <> [] ->
  picked_start ui = Some s -> picked_end ui = Some e -> e < s ->
  stage_range df ui =
  (Stopped, [DateInput "Start Date" (first_day df);
             DateInput "End Date" (last_day df);
             StError EMPTY_RANGE_ERROR]).
Proof.
  intros Hdt Hrows Hs He Hlt. rewrite stage_range_outcome by assumption. cbv zeta.
  rewrite Hs, He. cbn [chosen_date].
  rewrite range_filter_filter, filter_all_false; [reflexivity|].
  intros r _. apply not_true_is_false. intros H.
  apply in_range_bool in H as (s' & e' & [= <-] & [= <-] & H). lia.
Qed.

(** ** Selection (lines 44-52) *)

Lemma stage_index_returns (f : Csv) :
  exists df pre, stage_index f = (Ok df, pre) /\
                 (forall c, c ∈ columns df -> c ∈ columns (load f)).
Proof.
  destruct (detect_date_col (load f)) as [[p c]|] eqn:Hfind.
  - eexists _, _. split; [apply (stage_index_found f p c Hfind)|].
    intros x Hx. exact (temporal_index_columns p (load f) x Hx).
  - eexists _, _. split; [apply (stage_index_degraded f Hfind)|].
    intros x Hx. exact Hx.
Qed.

(** X7. When the user's pick holds no pollutant candidate of the loaded
    table (in particular when the multiselect is emptied), the script asks for a
    pollutant and stops at line 52, before any date input: the log is that of
    loading and indexing, then the sidebar header, the multiselect with the
    candidates as options and the first three as default, and the warning. *)
Theorem pick_without_candidate_halts (f : Csv) (ui : UI) (l : list string) :
  picked_pollutants ui = Some l ->
  (forall c, c ∈ l -> c ∈ columns (load f) -> Names.is_pollutant c = false) ->
  exists df pre,
    stage_index f = (Ok df, pre) /\
    app f ui =
    (Stopped, pre ++ [SidebarHeader "Filter Options";
                      Multiselect (pollutant_cols df) (take 3 (pollutant_cols df));
                      StWarning SELECT_WARNING]).
Proof.
  intros Hpick Hnone. destruct (stage_index_returns f) as (df & pre & Hidx & Hcols).
  exists df, pre. split; [exact Hidx|].
  unfold app. rewrite Hidx. cbn [bind].
  rewrite stage_select_outcome. cbv zeta. rewrite Hpick. cbn [chosen_options].
  rewrite filter_all_false; [reflexivity|].
  intros c Hc. apply bool_decide_eq_false_2. intros Hin.
  apply pollutant_cols_elem in Hin as [Hin Hp].
  rewrite (Hnone c Hc (Hcols c Hin)) in Hp. discriminate.
Qed.

(** X8. With the sidebar untouched, a file with a temporal column, at least
    one pollutant candidate and at least one row with a readable timestamp is
    stopped neither at line 52 nor at line 58: the first three candidates (or
    fewer, in the order of the table) are selected, the date inputs default to
    the first and the last day, and the whole indexed table goes on to the
    coercion and the resampler. *)
Theorem untouched_sidebar_reaches_gate (f : Csv) (p : nat) (c : string) :
  detect_date_col (load f) = Some (p, c) ->
  let df := temporal_index p (load f) in
  let sel := take 3 (pollutant_cols df) in
  pollutant_cols df <> [] ->
  rows df <> [] ->
  app f (mkUI None None None) =
  (fst (stage_daily sel df),
   StSuccess (length (rows (load f))) (length (columns (load f))) ::
   SidebarHeader "Filter Options" ::
   Multiselect (pollutant_cols df) sel ::
   DateInput "Start Date" (first_day df) ::
   DateInput "End Date" (last_day df) ::
   snd (stage_daily sel df)).
Proof.
  intros Hfind df sel Hcand Hrows.
  unfold app. rewrite (stage_index_found f p c Hfind). cbn [bind]. fold df.
  rewrite stage_select_outcome. cbv zeta. cbn [picked_pollutants chosen_options].
  fold sel. destruct sel as [|x sel'] eqn:Hsel.
  { unfold sel in Hsel. destruct (pollutant_cols df); [congruence | discriminate]. }
  cbn [bind]. rewrite stage_range_outcome by (reflexivity || exact Hrows). cbv zeta.
  cbn [picked_start picked_end chosen_date].
  rewrite range_filter_span.
  destruct (rows df) as [|r rs] eqn:Hr; [congruence|].
  cbn [bind]. destruct (stage_daily (x :: sel') df) as [res log]. reflexivity.
Qed.

(** ** Numeric coercion and validity gate (lines 60-61) *)

Lemma to_numeric_idempotent (c : Cell) : to_numeric (to_numeric c) = to_numeric c.
Proof.
  destruct c as [q|s|]; simpl; try reflexivity.
  destruct (to_numeric_token s); reflexivity.
Qed.

Lemma coerce_row_idempotent (sel cols : list string) (r : Row) :
  coerce_row sel cols (coerce_row sel cols r) = coerce_row sel cols r.
Proof.
  unfold coerce_row. cbn [label cells]. f_equal.
  apply list_eq. intros j. rewrite !list_lookup_imap.
  destruct (cells r !! j) as [c|]; [|reflexivity]. simpl. f_equal.
  destruct (selected_at sel cols j); [apply to_numeric_idempotent | reflexivity].
Qed.

Lemma filter_twice {A : Type} (f : A -> bool) (l : list A) :
  List.filter f (List.filter f l) = List.filter f l.
Proof. apply filter_all_true. intros x Hx. apply list_elem_of_In, filter_In in Hx. tauto. Qed.

(** X9. The coercion and the validity gate are idempotent: running lines
    60-61 again on their result changes nothing (a coerced cell stays as it
    is, a kept row stays kept). *)
Theorem validity_gate_idempotent (sel : list string) (df : DataFrame) :
  validity_gate sel (validity_gate sel df) = validity_gate sel df.
Proof.
  unfold validity_gate, dropna_all, coerce_selected.
  cbn [columns object_dtype datetime_index rows].
  f_equal.
  { apply list_eq. intros j. rewrite !list_lookup_imap.
    destruct (object_dtype df !! j) as [b|]; [|reflexivity]. simpl.
    destruct (selected_at sel (columns df) j); reflexivity. }
  set (P := fun r => negb (all_selected_missing sel (columns df) r)).
  set (C := coerce_row sel (columns df)).
  assert (map C (List.filter P (map C (rows df))) = List.filter P (map C (rows df))) as ->.
  { rewrite <- (map_id (List.filter P (map C (rows df)))) at 2.
    apply map_ext_in. intros x Hx. apply filter_In in Hx as [Hx _].
    apply in_map_iff in Hx as (r & <- & _). apply coerce_row_idempotent. }
  apply filter_twice.
Qed.

Lemma gate_labels_filter (sel : list string) (df : DataFrame) :
  exists keep : Row -> bool,
    map label (rows (validity_gate sel df)) =
    map label (List.filter keep (rows df)).
Proof.
  exists (fun r => negb (all_selected_missing sel (columns df)
                           (coerce_row sel (columns df) r))).
  unfold validity_gate, dropna_all, coerce_selected. cbn [rows columns].
  induction (rows df) as [|r rs IH]; [reflexivity|].
  simpl. destruct (negb _); simpl; rewrite IH; reflexivity.
Qed.

(** X10. After lines 60-61 no selected column holds text any more (each of
    its cells is a number or missing), every row keeps its label and its
    number of cells, and the rows that remain are in the order they had: the
    labels of the result are a sublist of the labels of the input. *)
Theorem validity_gate_output (sel : list string) (df : DataFrame) :
  map label (rows (validity_gate sel df)) `sublist_of` map label (rows df) /\
  forall r, r ∈ rows (validity_gate sel df) ->
    (exists r0, r0 ∈ rows df /\ label r = label r0 /\
                length (cells r) = length (cells r0)) /\
    forall j c x, columns df !! j = Some c -> c ∈ sel ->
                  cells r !! j = Some x -> is_text x = false.
Proof.
  split.
  - destruct (gate_labels_filter sel df) as [keep ->].
    induction (rows df) as [|r rs IH]; [constructor|].
    simpl. destruct (keep r); simpl; [apply sublist_skip | apply sublist_cons]; exact IH.
  - intros r Hr. unfold validity_gate, dropna_all, coerce_selected in Hr.
    cbn [rows columns] in Hr.
    apply list_elem_of_In, filter_In in Hr as [Hr _].
    apply in_map_iff in Hr as (r0 & <- & Hr0). split.
    + exists r0. split; [apply list_elem_of_In, Hr0|]. split; [reflexivity|].
      unfold coerce_row. cbn [cells]. apply length_imap.
    + intros j c x Hc Hin Hx. rewrite coerce_row_lookup in Hx.
      rewrite (proj2 (selected_at_true sel (columns df) j)) in Hx by eauto.
      destruct (cells r0 !! j) as [y|]; [|discriminate].
      injection Hx as <-. apply to_numeric_not_text.
Qed.

(** ** Completed runs (lines 28-65) *)

Lemma stage_daily_inv (sel : list string) (df w daily : DataFrame) (log : list Event) :
  stage_daily sel df = (Ok (w, daily), log) ->
  w = validity_gate sel df /\
  resample_mean w = Ok daily /\
  log = StMarkdown "---" ::
        (if (length (rows daily) <? 7)%nat then [StWarning SPARSE_WARNING] else []) ++
        [StHeader "Statistical Overview of Air Quality"].
Proof.
  unfold stage_daily. cbn [bind emit lift].
  destruct (resample_mean (validity_gate sel df)) as [d| |e] eqn:E;
    cbn [bind]; try discriminate.
  destruct (length (rows d) <? 7)%nat eqn:E7; cbn [bind emit ret app];
    intros [= <- <- <-]; rewrite ?E7; auto.
Qed.

Lemma app_completed_inv (f : Csv) (ui : UI) (w daily : DataFrame) (log : list Event) :
  app f ui = (Ok (w, daily), log) ->
  exists p c,
    detect_date_col (load f) = Some (p, c) /\
    let df := temporal_index p (load f) in
    let sel := chosen_options (pollutant_cols df) (take 3 (pollutant_cols df))
                              (picked_pollutants ui) in
    let start := chosen_date (first_day df) (picked_start ui) in
    let stop := chosen_date (last_day df) (picked_end ui) in
    sel <> [] /\
    rows (range_filter start stop df) <> [] /\
    w = validity_gate sel (range_filter start stop df) /\
    resample_mean w = Ok daily /\
    log = StSuccess (length (rows (load f))) (length (columns (load f))) ::
          SidebarHeader "Filter Options" ::
          Multiselect (pollutant_cols df) (take 3 (pollutant_cols df)) ::
          DateInput "Start Date" (first_day df) ::
          DateInput "End Date" (last_day df) ::
          StMarkdown "---" ::
          (if (length (rows daily) <? 7)%nat then [StWarning SPARSE_WARNING] else []) ++
          [StHeader "Statistical Overview of Air Quality"].
Proof.
  unfold app. destruct (detect_date_col (load f)) as [[p c]|] eqn:Hfind.
  - rewrite (stage_index_found f p c Hfind). cbn [bind].
    rewrite stage_select_outcome. cbv zeta.
    destruct (chosen_options _ _ _) as [|x sel'] eqn:Hsel; [discriminate|].
    cbn [bind].
    destruct (rows (temporal_index p (load f))) as [|r0 rs0] eqn:Hrows.
    { rewrite stage_range_empty by (reflexivity || exact Hrows). discriminate. }
    rewrite stage_range_outcome by (reflexivity || (rewrite Hrows; discriminate)).
    cbv zeta.
    destruct (rows (range_filter _ _ _)) as [|r rs] eqn:Hr; [discriminate|].
    cbn [bind].
    destruct (stage_daily (x :: sel') _) as [res log'] eqn:Hd.
    intros [= -> <-]. apply stage_daily_inv in Hd as (-> & Hres & ->).
    exists p, c. split; [reflexivity|]. cbv zeta. rewrite Hsel, Hr.
    repeat split; try congruence.
  - rewrite (stage_index_degraded f Hfind). cbn [bind].
    rewrite stage_select_outcome. cbv zeta.
    destruct (chosen_options _ _ _) as [|x sel']; [discriminate|].
    cbn [bind]. unfold stage_range, index_date. rewrite load_datetime_index.
    discriminate.
Qed.

(** X11. A run reaches line 65 only if a temporal column was detected, the
    selection holds a candidate and some row lies in the chosen range. The
    working table is then the validity gate of the range-filtered indexed
    table, the daily table its resampling, and the log is exactly: the success
    message, the sidebar header, the multiselect, the two date inputs, the
    rule, the short-range warning if the daily table has fewer than 7 rows,
    and the header of the statistics. *)
Theorem completed_run (f : Csv) (ui : UI) (w daily : DataFrame) (log : list Event) :
  app f ui = (Ok (w, daily), log) ->
  exists p c,
    detect_date_col (load f) = Some (p, c) /\
    let df := temporal_index p (load f) in
    let sel := chosen_options (pollutant_cols df) (take 3 (pollutant_cols df))
                              (picked_pollutants ui) in
    let start := chosen_date (first_day df) (picked_start ui) in
    let stop := chosen_date (last_day df) (picked_end ui) in
    sel <> [] /\
    rows (range_filter start stop df) <> [] /\
    w = validity_gate sel (range_filter start stop df) /\
    resample_mean w = Ok daily /\
    log = StSuccess (length (rows (load f))) (length (columns (load f))) ::
          SidebarHeader "Filter Options" ::
          Multiselect (pollutant_cols df) (take 3 (pollutant_cols df)) ::
          DateInput "Start Date" (first_day df) ::
          DateInput "End Date" (last_day df) ::
          StMarkdown "---" ::
          (if (length (rows daily) <? 7)%nat then [StWarning SPARSE_WARNING] else []) ++
          [StHeader "Statistical Overview of Air Quality"].
Proof. apply app_completed_inv. Qed.

Lemma StronglySorted_filter_labels (keep : Row -> bool) (rs : list Row) :
  StronglySorted Z.le (map label rs) ->
  StronglySorted Z.le (map label (List.filter keep rs)).
Proof.
  induction rs as [|r rs IH]; intros H; [constructor|].
  simpl in H. apply StronglySorted_inv in H as [Hs Hall].
  simpl. destruct (keep r); [|apply IH, Hs].
  simpl. constructor; [apply IH, Hs|].
  rewrite List.Forall_forall in Hall |- *. intros x Hx. apply Hall.
  apply in_map_iff in Hx as (y & <- & Hy). apply filter_In in Hy as [Hy _].
  apply in_map. exact Hy.
Qed.

Lemma temporal_index_sorted (p : nat) (df : DataFrame) :
  sorting_kernel argsort ->
  StronglySorted Z.le (map label (rows (temporal_index p df))).
Proof.
  intros Hk. apply Sorted_StronglySorted; [intros x y z; apply Z.le_trans|].
  unfold temporal_index. cbn [rows]. rewrite map_map. cbn [set_index_row label].
  apply (sort_values_sorted _ Hk).
Qed.

(** X12. Whatever lawful kernel sorts, the working table of a completed run
    is in non-decreasing timestamp order (the range filter and the validity
    gate keep the order of the indexer), and each of its rows lies on or after
    the picked start day, on or before the picked end day, and holds a number
    in some pollutant column. *)
Theorem working_table_invariants (f : Csv) (ui : UI) (w daily : DataFrame)
    (log : list Event) :
  sorting_kernel argsort ->
  app f ui = (Ok (w, daily), log) ->
  Sorted Z.le (map label (rows w)) /\
  forall r, r ∈ rows w ->
    (forall s, picked_start ui = Some s -> s <= date_of (label r)) /\
    (forall e, picked_end ui = Some e -> date_of (label r) <= e) /\
    (exists j c q, columns w !! j = Some c /\ Names.is_pollutant c = true /\
                   cells r !! j = Some (Num q)).
Proof.
  intros Hk Hrun.
  apply app_completed_inv in Hrun as (p & c & Hfind & Hrun). cbv zeta in Hrun.
  destruct Hrun as (Hsel & Hrows & -> & Hres & _).
  set (df := temporal_index p (load f)) in *.
  set (sel := chosen_options _ _ _) in *.
  set (start := chosen_date (first_day df) _) in *.
  set (stop := chosen_date (last_day df) _) in *.
  split.
  - apply StronglySorted_Sorted.
    destruct (gate_labels_filter sel (range_filter start stop df)) as [keep ->].
    apply StronglySorted_filter_labels.
    rewrite range_filter_filter. apply StronglySorted_filter_labels.
    apply temporal_index_sorted, Hk.
  - intros r Hr.
    unfold validity_gate, dropna_all, coerce_selected in Hr. cbn [rows columns] in Hr.
    apply list_elem_of_In, filter_In in Hr as [Hr Hvalid].
    apply in_map_iff in Hr as (r0 & <- & Hr0).
    rewrite range_filter_filter in Hr0. apply filter_In in Hr0 as [_ Hin].
    apply (in_range_bool start stop r0) in Hin as (s & e & Hs & He & Hle).
    split; [|split].
    + intros s' Hs'. unfold start in Hs. rewrite Hs' in Hs. injection Hs as ->.
      cbn [coerce_row label]. lia.
    + intros e' He'. unfold stop in He. rewrite He' in He. injection He as ->.
      cbn [coerce_row label]. lia.
    + apply has_valid_selected in Hvalid as (j & c' & x & Hc & Hcin & Hx & Hm).
      assert (Names.is_pollutant c' = true) as Hp.
      { assert (c' ∈ pollutant_cols df) as H.
        { unfold sel in Hcin. eapply chosen_options_elem; [|exact Hcin].
          intros d Hd. exact (subseteq_take _ _ _ Hd). }
        apply pollutant_cols_elem in H. tauto. }
      rewrite coerce_row_lookup in Hx.
      rewrite (proj2 (selected_at_true sel _ j)) in Hx by eauto.
      destruct (cells r0 !! j) as [y|] eqn:Hy; [|discriminate].
      injection Hx as <-. destruct y as [q|t|]; simpl in Hm.
      * exists j, c', q. repeat split; auto.
        rewrite coerce_row_lookup, Hy.
        rewrite (proj2 (selected_at_true sel _ j)) by eauto. reflexivity.
      * destruct (to_numeric_token t) as [q|] eqn:Ht; [|discriminate].
        exists j, c', q. repeat split; auto.
        rewrite coerce_row_lookup, Hy.
        rewrite (proj2 (selected_at_true sel _ j)) by eauto. simpl. rewrite Ht.
        reflexivity.
      * discriminate.
Qed.

(** ** Daily resampler and short-range warning (lines 62-64) *)

Lemma resample_mean_length (df out : DataFrame) :
  resample_mean df = Ok out -> length (rows out) = length (daily_bins df).
Proof.
  unfold resample_mean. destruct (negb (datetime_index df)); [discriminate|].
  destruct numeric_only.
  - intros [= <-]. cbn [rows]. apply length_map.
  - destruct (existsb id (object_columns df)); [discriminate|].
    intros [= <-]. reflexivity.
Qed.

(** X13. The warning of line 64 counts calendar days of the span, not days
    with readings: the daily table has one row for each day from the first to
    the last day of the working table, so the warning is logged exactly when
    the last day is fewer than 6 days after the first. *)
Theorem sparse_warning_counts_span (sel : list string) (df daily : DataFrame)
    (first last : Z) :
  resample_mean (validity_gate sel df) = Ok daily ->
  first_day (validity_gate sel df) = Some first ->
  last_day (validity_gate sel df) = Some last ->
  length (rows daily) = Z.to_nat (last - first + 1) /\
  (StWarning SPARSE_WARNING ∈ snd (stage_daily sel df) <-> last - first < 6).
Proof.
  intros Hres Hf Hl.
  assert (length (rows daily) = Z.to_nat (last - first + 1)) as Hlen.
  { rewrite (resample_mean_length _ _ Hres), (daily_bins_span _ first last Hf Hl).
    apply group_mean_length. }
  split; [exact Hlen|].
  unfold stage_daily. rewrite Hres. cbn [lift bind emit ret app snd].
  destruct (length (rows daily) <? 7)%nat eqn:E7; cbn [bind emit ret app snd].
  - apply Nat.ltb_lt in E7. split; [lia|]. intros _. right. left.
  - apply Nat.ltb_ge in E7. split; [|lia]. intros H.
    apply elem_of_cons in H as [H|H]; [discriminate|].
    apply elem_of_cons in H as [H|H]; [discriminate|].
    apply elem_of_nil in H. contradiction.
Qed.


End FurtherPipeline.

(** ** Rolling average (lines 86-89) *)

Lemma numbers_cons (c : Cell) (l : list Cell) :
  numbers (c :: l) = match c with Num q => q :: numbers l | _ => numbers l end.
Proof. destruct c; reflexivity. Qed.

Lemma numbers_length (l : list Cell) : (length (numbers l) <= length l)%nat.
Proof.
  induction l as [|c l IH]; [reflexivity|].
  rewrite numbers_cons. destruct c; cbn [length]; lia.
Qed.

Lemma numbers_full (l : list Cell) :
  length (numbers l) = length l <-> forall x, x ∈ l -> exists q, x = Num q.
Proof.
  induction l as [|c l IH].
  - split; [intros _ x Hx; apply elem_of_nil in Hx; contradiction | reflexivity].
  - pose proof (numbers_length l) as Hle.
    rewrite numbers_cons. destruct c as [q|s|]; cbn [length].
    + split.
      * intros H x Hx. apply elem_of_cons in Hx as [->|Hx]; [eauto|].
        apply IH; [lia | exact Hx].
      * intros H. f_equal. apply IH. intros x Hx. apply H. right. exact Hx.
    + split; [lia|]. intros H. destruct (H (Str s) ltac:(left)) as [q Hq]. discriminate.
    + split; [lia|]. intros H. destruct (H NaN ltac:(left)) as [q Hq]. discriminate.
Qed.

Lemma rolling_window_lookup (n i t : nat) (rs : list Row) :
  rolling_window n i rs !! t =
  if decide (S i - n + t < S i)%nat then rs !! (S i - n + t)%nat else None.
Proof.
  unfold rolling_window. rewrite lookup_drop.
  destruct (decide (S i - n + t < S i)%nat) as [H|H].
  - apply lookup_take_lt. exact H.
  - apply lookup_take_ge. lia.
Qed.

Lemma rolling_window_length (n i : nat) (rs : list Row) :
  (i < length rs)%nat -> length (rolling_window n i rs) = Nat.min (S i) n.
Proof.
  intros Hi. unfold rolling_window. rewrite length_drop, length_take. lia.
Qed.

Lemma rolling_mean_lookup (n : nat) (df : DataFrame) (i : nat) (r : Row) :
  rows (rolling_mean n df) !! i = Some r ->
  exists r0, rows df !! i = Some r0 /\ label r = label r0 /\
             length (cells r) = length (cells r0) /\
             forall j, (j < length (cells r0))%nat ->
                       cells r !! j = Some (rolling_cell n i j (rows df)).
Proof.
  unfold rolling_mean. cbn [rows]. rewrite list_lookup_imap.
  destruct (rows df !! i) as [r0|]; [|discriminate].
  intros [= <-]. exists r0. split; [reflexivity|]. cbn [label cells].
  split; [reflexivity|]. split; [apply length_imap|].
  intros j Hj. rewrite list_lookup_imap.
  destruct (lookup_lt_is_Some_2 (cells r0) j Hj) as [x ->]. reflexivity.
Qed.

(** X15. The rolling series has the shape of the daily series: the same
    columns, the same days in the same order and rows of the same width,
    whether the seven-day window is applied or, for a daily table of fewer
    than 7 rows, the daily table is used as it is. *)
Theorem rolling_avg_shape (df_daily : DataFrame) :
  columns (rolling_avg df_daily) = columns df_daily /\
  map label (rows (rolling_avg df_daily)) = map label (rows df_daily) /\
  map (fun r => length (cells r)) (rows (rolling_avg df_daily)) =
    map (fun r => length (cells r)) (rows df_daily) /\
  ((length (rows df_daily) < 7)%nat -> rolling_avg df_daily = df_daily).
Proof.
  unfold rolling_avg.
  destruct (7 <=? length (rows df_daily))%nat eqn:E.
  - apply Nat.leb_le in E. split; [reflexivity|].
    unfold rolling_mean. cbn [rows]. split; [|split; [|lia]].
    + change (map label ?l) with (label <$> l). apply list_eq. intros i.
      rewrite !list_lookup_fmap, list_lookup_imap.
      destruct (rows df_daily !! i); reflexivity.
    + change (map ?g ?l) with (g <$> l). apply list_eq. intros i.
      rewrite !list_lookup_fmap, list_lookup_imap.
      destruct (rows df_daily !! i); simpl; [|reflexivity].
      rewrite length_imap. reflexivity.
  - apply Nat.leb_gt in E. repeat split; reflexivity.
Qed.

Lemma rolling_cell_number (i j : nat) (rs : list Row) :
  (i < length rs)%nat ->
  is_text (rolling_cell 7 i j rs) = false /\
  (is_missing (rolling_cell 7 i j rs) = false <->
   (6 <= i)%nat /\
   forall k, (i - 6 <= k <= i)%nat ->
             exists r0 q, rs !! k = Some r0 /\ cells r0 !! j = Some (Num q)).
Proof.
  intros Hi. unfold rolling_cell. cbv zeta.
  set (win := rolling_window 7 i rs).
  set (col := map (fun r => nth j (cells r) NaN) win).
  pose proof (numbers_length col) as Hle.
  assert (length col = Nat.min (S i) 7) as Hcol.
  { unfold col. rewrite length_map. apply rolling_window_length, Hi. }
  assert (forall k r0, (i - 6 <= k <= i)%nat -> rs !! k = Some r0 ->
                       nth j (cells r0) NaN ∈ col) as Hin.
  { intros k r0 Hk Hr0. unfold col.
    apply list_elem_of_In, (in_map (fun r => nth j (cells r) NaN)), list_elem_of_In.
    apply list_elem_of_lookup. exists (k - (S i - 7))%nat.
    unfold win. rewrite rolling_window_lookup.
    destruct (decide _) as [_|Hn]; [|lia].
    replace (S i - 7 + (k - (S i - 7)))%nat with k by lia. exact Hr0. }
  destruct (length (numbers col) <? 7)%nat eqn:E.
  - apply Nat.ltb_lt in E. split; [reflexivity|]. split; [discriminate|].
    intros [H6 Hall]. exfalso.
    assert (length (numbers col) = length col) as Hfull.
    { apply numbers_full. intros x Hx. unfold col in Hx.
      apply list_elem_of_In, in_map_iff in Hx as (r0 & <- & Hr0).
      apply list_elem_of_In, list_elem_of_lookup in Hr0 as [t Ht].
      unfold win in Ht. rewrite rolling_window_lookup in Ht.
      destruct (decide _) as [Hlt|_]; [|discriminate].
      destruct (Hall (S i - 7 + t)%nat ltac:(lia)) as (r1 & q & Hr1 & Hq).
      rewrite Ht in Hr1. injection Hr1 as <-. exists q.
      apply nth_lookup_Some. exact Hq. }
    lia.
  - apply Nat.ltb_ge in E. split; [reflexivity|]. split; [intros _|reflexivity].
    split; [lia|]. intros k Hk.
    destruct (lookup_lt_is_Some_2 rs k ltac:(lia)) as [r0 Hr0].
    assert (length (numbers col) = length col) as Hfull by lia.
    destruct (proj1 (numbers_full col) Hfull _ (Hin k r0 Hk Hr0)) as [q Hq].
    exists r0, q. split; [exact Hr0|].
    destruct (nth_lookup_or_length (cells r0) j NaN) as [H|H].
    + rewrite H, Hq. reflexivity.
    + rewrite nth_overflow in Hq by lia. discriminate.
Qed.

(** X16. On a daily table of at least 7 rows, a cell of the rolling table is
    a number exactly when it lies in the seventh row or later and the daily
    table holds a number in that column in this row and in each of the six
    rows before it; otherwise it is missing (never text). So the first six
    rows are blank, and one missing daily value blanks seven rolling
    values. *)
Theorem rolling_value_needs_seven_numbers (df_daily : DataFrame) (i j : nat) (r : Row) :
  (7 <= length (rows df_daily))%nat ->
  rows (rolling_avg df_daily) !! i = Some r ->
  (j < length (cells r))%nat ->
  exists x, cells r !! j = Some x /\ is_text x = false /\
    (is_missing x = false <->
     (6 <= i)%nat /\
     forall k, (i - 6 <= k <= i)%nat ->
               exists r0 q, rows df_daily !! k = Some r0 /\ cells r0 !! j = Some (Num q)).
Proof.
  intros H7 Hr Hj. unfold rolling_avg in Hr.
  rewrite (proj2 (Nat.leb_le _ _) H7) in Hr.
  apply rolling_mean_lookup in Hr as (r0 & Hr0 & _ & Hlen & Hcells).
  exists (rolling_cell 7 i j (rows df_daily)).
  split; [apply Hcells; lia|].
  apply rolling_cell_number. eapply lookup_lt_Some; eauto.
Qed.

(** ** Headline metrics (lines 67-69) *)

Lemma fold_Qmin_le (l : list Q) (a x : Q) :
  x ∈ a :: l -> (fold_left Qmin l a <= x)%Q.
Proof.
  revert a x. induction l as [|y l IH]; intros a x Hx; simpl.
  - apply list_elem_of_singleton in Hx. subst. apply Qle_refl.
  - apply elem_of_cons in Hx as [->|Hx].
    + eapply Qle_trans; [apply (IH (Qmin a y) (Qmin a y)); left | apply Q.le_min_l].
    + apply elem_of_cons in Hx as [->|Hx].
      * eapply Qle_trans; [apply (IH (Qmin a y) (Qmin a y)); left | apply Q.le_min_r].
      * apply IH. right. exact Hx.
Qed.

Lemma fold_Qmax_ge (l : list Q) (a x : Q) :
  x ∈ a :: l -> (x <= fold_left Qmax l a)%Q.
Proof.
  revert a x. induction l as [|y l IH]; intros a x Hx; simpl.
  - apply list_elem_of_singleton in Hx. subst. apply Qle_refl.
  - apply elem_of_cons in Hx as [->|Hx].
    + eapply Qle_trans; [apply Q.le_max_l | apply (IH (Qmax a y) (Qmax a y)); left].
    + apply elem_of_cons in Hx as [->|Hx].
      * eapply Qle_trans; [apply Q.le_max_r | apply (IH (Qmax a y) (Qmax a y)); left].
      * apply IH. right. exact Hx.
Qed.

Lemma series_min_le (l : list Q) (m x : Q) :
  series_min l = Some m -> x ∈ l -> (m <= x)%Q.
Proof. destruct l as [|a l]; [discriminate|]. intros [= <-]. apply fold_Qmin_le. Qed.

Lemma series_max_ge (l : list Q) (m x : Q) :
  series_max l = Some m -> x ∈ l -> (x <= m)%Q.
Proof. destruct l as [|a l]; [discriminate|]. intros [= <-]. apply fold_Qmax_ge. Qed.

Lemma series_aggregates_skip :
  (forall l, series_mean l = None <-> l = []) /\
  (forall l, series_min l = None <-> l = []) /\
  (forall l, series_max l = None <-> l = []).
Proof. repeat split; destruct l; simpl; congruence. Qed.

Lemma reduce_frame_none (agg : list Q -> option Q) (sel : list string) (df : DataFrame) :
  (forall l, agg l = None <-> l = []) ->
  (reduce_frame agg sel df = None <->
   forall c, c ∈ sel -> numbers (column_named c df) = []).
Proof.
  intros Hagg. unfold reduce_frame. rewrite Hagg.
  induction sel as [|c sel IH]; cbn [omap list_omap].
  - split; [intros _ c Hc; apply elem_of_nil in Hc; contradiction | reflexivity].
  - destruct (agg (numbers (column_named c df))) as [v|] eqn:E.
    + split; [discriminate|]. intros H.
      specialize (H c ltac:(left)). apply Hagg in H. congruence.
    + apply Hagg in E. rewrite IH. split.
      * intros H x Hx. apply elem_of_cons in Hx as [->|Hx]; auto.
      * intros H x Hx. apply H. right. exact Hx.
Qed.

(** X17. The three headline numbers of lines 67-69, before rounding, are
    missing together, namely when no selected column holds a number;
    otherwise the overall minimum is at most every number of the selected
    columns and the overall maximum at least every one. *)
Theorem headline_metrics_consistent (sel : list string) (df : DataFrame) :
  (overall_mean sel df = None <-> forall c, c ∈ sel -> numbers (column_named c df) = []) /\
  (overall_min sel df = None <-> overall_mean sel df = None) /\
  (overall_max sel df = None <-> overall_mean sel df = None) /\
  forall lo hi,
    overall_min sel df = Some lo -> overall_max sel df = Some hi ->
    (forall c q, c ∈ sel -> q ∈ numbers (column_named c df) -> lo <= q /\ q <= hi)%Q.
Proof.
  destruct series_aggregates_skip as (Hmean & Hmin & Hmax).
  unfold overall_mean, overall_min, overall_max.
  split; [apply reduce_frame_none, Hmean|].
  split; [rewrite !reduce_frame_none by assumption; reflexivity|].
  split; [rewrite !reduce_frame_none by assumption; reflexivity|].
  intros lo hi Hlo Hhi c q Hc Hq. unfold reduce_frame in Hlo, Hhi. split.
  - destruct (series_min (numbers (column_named c df))) as [mc|] eqn:E.
    + eapply Qle_trans; [|exact (series_min_le _ _ _ E Hq)].
      apply (series_min_le _ _ _ Hlo). apply list_elem_of_omap. eauto.
    + apply Hmin in E. rewrite E in Hq. apply elem_of_nil in Hq. contradiction.
  - destruct (series_max (numbers (column_named c df))) as [mc|] eqn:E.
    + eapply Qle_trans; [exact (series_max_ge _ _ _ E Hq)|].
      apply (series_max_ge _ _ _ Hhi). apply list_elem_of_omap. eauto.
    + apply Hmax in E. rewrite E in Hq. apply elem_of_nil in Hq. contradiction.
Qed.

(** ** Monthly grouping (lines 101-113) *)

Lemma insert_key_elem (k x : Z) (ks : list Z) :
  x ∈ insert_key k ks <-> x = k \/ x ∈ ks.
Proof.
  induction ks as [|y ks IH]; simpl.
  - rewrite list_elem_of_singleton. split; [auto|].
    intros [H|H]; [exact H | apply elem_of_nil in H; contradiction].
  - destruct (k <? y) eqn:E1; [rewrite elem_of_cons; tauto|].
    destruct (k =? y) eqn:E2.
    + apply Z.eqb_eq in E2. subst y. rewrite elem_of_cons. tauto.
    + rewrite !elem_of_cons, IH. tauto.
Qed.

Lemma insert_key_sorted (k : Z) (ks : list Z) :
  StronglySorted Z.lt ks -> StronglySorted Z.lt (insert_key k ks).
Proof.
  induction ks as [|y ks IH]; intros Hs; simpl.
  - repeat constructor.
  - apply StronglySorted_inv in Hs as [Hs Hall].
    destruct (k <? y) eqn:E1.
    + apply Z.ltb_lt in E1. constructor; [constructor; assumption|].
      constructor; [exact E1|].
      rewrite List.Forall_forall in Hall |- *. intros x Hx. specialize (Hall x Hx). lia.
    + destruct (k =? y) eqn:E2; [constructor; assumption|].
      apply Z.ltb_ge in E1. apply Z.eqb_neq in E2.
      constructor; [apply IH, Hs|].
      rewrite List.Forall_forall in Hall |- *. intros x Hx.
      apply list_elem_of_In, insert_key_elem in Hx as [->|Hx]; [lia|].
      apply Hall, list_elem_of_In, Hx.
Qed.

Lemma group_keys_elem (x : Z) (ks : list Z) : x ∈ group_keys ks <-> x ∈ ks.
Proof.
  induction ks as [|k ks IH]; [reflexivity|].
  simpl. rewrite insert_key_elem, elem_of_cons, IH. reflexivity.
Qed.

Lemma group_keys_sorted (ks : list Z) : StronglySorted Z.lt (group_keys ks).
Proof.
  induction ks as [|k ks IH]; [constructor|]. simpl. apply insert_key_sorted, IH.
Qed.

Lemma monthly_avg_keys (month_of : Z -> Z) (sel : list string) (df_daily : DataFrame) :
  map fst (monthly_avg month_of sel df_daily) = group_keys (month_column month_of df_daily).
Proof.
  unfold monthly_avg. rewrite map_map. cbn [fst]. apply map_id.
Qed.

(** X18. The monthly table has one entry for every month that occurs among
    the days of the daily table and for no other, in strictly increasing
    order of the month, each with one value per selected pollutant. The
    message "No valid monthly data" replaces the chart exactly when the daily
    table has no row; the bar chart is drawn for one or two distinct months,
    the line chart from three on. *)
Theorem monthly_groups (month_of : Z -> Z) (sel : list string) (df_daily : DataFrame) :
  let monthly := monthly_avg month_of sel df_daily in
  StronglySorted Z.lt (map fst monthly) /\
  (forall m, m ∈ map fst monthly <->
             exists r, r ∈ rows df_daily /\ month_of (date_of (label r)) = m) /\
  (forall m cs, (m, cs) ∈ monthly -> length cs = length sel) /\
  (monthly_view monthly = NoMonthlyData <-> rows df_daily = []) /\
  (monthly_view monthly = LineView <->
   exists m1 m2 m3, m1 < m2 /\ m2 < m3 /\
                    m1 ∈ map fst monthly /\ m2 ∈ map fst monthly /\ m3 ∈ map fst monthly).
Proof.
  cbv zeta. rewrite monthly_avg_keys.
  assert (forall m, m ∈ group_keys (month_column month_of df_daily) <->
                    exists r, r ∈ rows df_daily /\ month_of (date_of (label r)) = m) as Hkeys.
  { intros m. rewrite group_keys_elem. unfold month_column.
    rewrite list_elem_of_In, in_map_iff. split.
    - intros (r & <- & Hr). exists r. split; [apply list_elem_of_In, Hr | reflexivity].
    - intros (r & Hr & <-). exists r. split; [reflexivity | apply list_elem_of_In, Hr]. }
  split; [apply group_keys_sorted|]. split; [exact Hkeys|]. split.
  { intros m cs H. unfold monthly_avg in H.
    apply list_elem_of_In, in_map_iff in H as (k & [= <- <-] & _). apply length_map. }
  pose proof (group_keys_sorted (month_column month_of df_daily)) as Hsorted.
  pose proof (monthly_avg_keys month_of sel df_daily) as Hk.
  assert (length (monthly_avg month_of sel df_daily) =
          length (group_keys (month_column month_of df_daily))) as Hlen.
  { rewrite <- Hk. symmetry. apply length_map. }
  split.
  - unfold monthly_view.
    destruct (monthly_avg month_of sel df_daily) as [|e es] eqn:E.
    + split; [intros _ | reflexivity].
      destruct (rows df_daily) as [|r rs] eqn:Hr; [reflexivity|]. exfalso.
      assert (month_of (date_of (label r)) ∈ group_keys (month_column month_of df_daily)) as Hin.
      { apply Hkeys. exists r. split; [first [rewrite Hr; left | left] | reflexivity]. }
      simpl in Hk. rewrite <- Hk in Hin. apply elem_of_nil in Hin. exact Hin.
    + split.
      * destruct (length (e :: es) <=? 2)%nat; discriminate.
      * intros Hnil. exfalso.
        assert (fst e ∈ group_keys (month_column month_of df_daily)) as Hin.
        { rewrite <- Hk. left. }
        apply Hkeys in Hin as (r & Hr & _). rewrite Hnil in Hr.
        apply elem_of_nil in Hr. exact Hr.
  - unfold monthly_view. rewrite <- Hk in Hsorted |- *.
    destruct (monthly_avg month_of sel df_daily) as [|e1 [|e2 [|e3 es]]]; simpl in *.
    + split; [discriminate|]. intros (m1 & _ & _ & _ & _ & H & _).
      apply elem_of_nil in H. contradiction.
    + split; [discriminate|]. intros (m1 & m2 & m3 & H12 & H23 & H1 & H2 & H3).
      apply list_elem_of_singleton in H1, H2. lia.
    + split; [discriminate|]. intros (m1 & m2 & m3 & H12 & H23 & H1 & H2 & H3).
      rewrite !elem_of_cons in H1, H2, H3.
      assert (forall x, x ∈ @nil Z -> False) as Hn by (intros x Hx; apply elem_of_nil in Hx; exact Hx).
      destruct H1 as [->|[->|H1]]; [| |destruct (Hn _ H1)];
      destruct H2 as [->|[->|H2]]; try (destruct (Hn _ H2)); try lia;
      destruct H3 as [->|[->|H3]]; try (destruct (Hn _ H3)); lia.
    + split; [intros _ | reflexivity].
      apply StronglySorted_inv in Hsorted as [Hs H1].
      apply StronglySorted_inv in Hs as [_ H2].
      apply Forall_cons in H1 as [H12 _]. apply Forall_cons in H2 as [H23 _].
      exists (fst e1), (fst e2), (fst e3).
      split; [exact H12|]. split; [exact H23|].
      split; [left|]. split; [right; left | right; right; left].
Qed.

(** ** The further properties on the sample files *)

Lemma inverted_range_halts_witness :
  let pandas := demo Demo.argsort_stable true in
  let df := temporal_index 0 (load Samples.scenario) in
  stage_range df Samples.inverted =
  (Stopped, [DateInput "Start Date" (first_day df);
             DateInput "End Date" (last_day df);
             StError EMPTY_RANGE_ERROR]).
Proof.
  apply (inverted_range_halts
           (temporal_index (pandas := demo Demo.argsort_stable true) 0
                           (load Samples.scenario))
           Samples.inverted 5 2).
  - reflexivity.
  - vm_compute. discriminate.
  - reflexivity.
  - reflexivity.
  - lia.
Defined.

Lemma pick_without_candidate_halts_witness :
  let pandas := demo Demo.argsort_stable true in
  exists df pre,
    stage_index Samples.humid = (Ok df, pre) /\
    app Samples.humid Samples.humidity_only =
    (Stopped, pre ++ [SidebarHeader "Filter Options";
                      Multiselect (pollutant_cols df) (take 3 (pollutant_cols df));
                      StWarning SELECT_WARNING]).
Proof.
  apply (pick_without_candidate_halts (pandas := demo Demo.argsort_stable true)
           Samples.humid Samples.humidity_only ["Humidity"]).
  - reflexivity.
  - intros c Hc _. apply list_elem_of_singleton in Hc. subst c. reflexivity.
Defined.

Lemma untouched_sidebar_reaches_gate_witness :
  let pandas := demo Demo.argsort_stable true in
  let df := temporal_index 0 (load Samples.scenario) in
  let sel := take 3 (pollutant_cols df) in
  app Samples.scenario (mkUI None None None) =
  (fst (stage_daily sel df),
   StSuccess (length (rows (load Samples.scenario)))
             (length (columns (load Samples.scenario))) ::
   SidebarHeader "Filter Options" ::
   Multiselect (pollutant_cols df) sel ::
   DateInput "Start Date" (first_day df) ::
   DateInput "End Date" (last_day df) ::
   snd (stage_daily sel df)).
Proof.
  apply (untouched_sidebar_reaches_gate (pandas := demo Demo.argsort_stable true)
           Samples.scenario 0 "date").
  - reflexivity.
  - discriminate.
  - discriminate.
Defined.

Lemma completed_run_witness :
  let pandas := demo Demo.argsort_stable false in
  let w := {| columns := ["pm25"; "no2"];
              object_dtype := [false; false];
              datetime_index := true;
              rows := [ mkRow 0 [Num 50; Num 30];
                        mkRow (12 * Demo.NS_PER_HOUR) [Num 70; NaN];
                        mkRow (24 * Demo.NS_PER_HOUR) [Num 60; Num 40] ] |} in
  let daily := {| columns := ["pm25"; "no2"];
                  object_dtype := [false; false];
                  datetime_index := true;
                  rows := [ mkRow 0 [Num 60; Num 30];
                            mkRow NS_PER_DAY [Num 60; Num 40] ] |} in
  let log := [StSuccess 3 3;
              SidebarHeader "Filter Options";
              Multiselect ["pm25"; "no2"] ["pm25"; "no2"];
              DateInput "Start Date" (Some 0);
              DateInput "End Date" (Some 1);
              StMarkdown "---";
              StWarning SPARSE_WARNING;
              StHeader "Statistical Overview of Air Quality"] in
  exists p c,
    detect_date_col (load Samples.scenario) = Some (p, c) /\
    let df := temporal_index p (load Samples.scenario) in
    let sel := chosen_options (pollutant_cols df) (take 3 (pollutant_cols df))
                              (picked_pollutants Samples.defaults) in
    let start := chosen_date (first_day df) (picked_start Samples.defaults) in
    let stop := chosen_date (last_day df) (picked_end Samples.defaults) in
    sel <> [] /\
    rows (range_filter start stop df) <> [] /\
    w = validity_gate sel (range_filter start stop df) /\
    resample_mean w = Ok daily /\
    log = StSuccess (length (rows (load Samples.scenario)))
                    (length (columns (load Samples.scenario))) ::
          SidebarHeader "Filter Options" ::
          Multiselect (pollutant_cols df) (take 3 (pollutant_cols df)) ::
          DateInput "Start Date" (first_day df) ::
          DateInput "End Date" (last_day df) ::
          StMarkdown "---" ::
          (if (length (rows daily) <? 7)%nat then [StWarning SPARSE_WARNING] else []) ++
          [StHeader "Statistical Overview of Air Quality"].
Proof.
  intros pandas w daily log.
  apply (completed_run (pandas := demo Demo.argsort_stable false)
           Samples.scenario Samples.defaults w daily log).
  vm_compute. reflexivity.
Defined.

Lemma working_table_invariants_witness :
  let pandas := demo Demo.argsort_stable false in
  let w := {| columns := ["pm25"; "no2"];
              object_dtype := [false; false];
              datetime_index := true;
              rows := [ mkRow 0 [Num 50; Num 30];
                        mkRow (12 * Demo.NS_PER_HOUR) [Num 70; NaN];
                        mkRow (24 * Demo.NS_PER_HOUR) [Num 60; Num 40] ] |} in
  Sorted Z.le (map label (rows w)) /\
  forall r, r ∈ rows w ->
    (forall s, picked_start Samples.defaults = Some s -> s <= date_of (label r)) /\
    (forall e, picked_end Samples.defaults = Some e -> date_of (label r) <= e) /\
    (exists j c q, columns w !! j = Some c /\ Names.is_pollutant c = true /\
                   cells r !! j = Some (Num q)).
Proof.
  intros pandas w.
  apply (working_table_invariants (pandas := demo Demo.argsort_stable false)
           Samples.scenario Samples.defaults w
           {| columns := ["pm25"; "no2"];
              object_dtype := [false; false];
              datetime_index := true;
              rows := [ mkRow 0 [Num 60; Num 30];
                        mkRow NS_PER_DAY [Num 60; Num 40] ] |}
           [StSuccess 3 3;
            SidebarHeader "Filter Options";
            Multiselect ["pm25"; "no2"] ["pm25"; "no2"];
            DateInput "Start Date" (Some 0);
            DateInput "End Date" (Some 1);
            StMarkdown "---";
            StWarning SPARSE_WARNING;
            StHeader "Statistical Overview of Air Quality"]).
  - exact argsort_stable_lawful.
  - vm_compute. reflexivity.
Defined.

Lemma sparse_warning_counts_span_witness :
  let pandas := demo Demo.argsort_stable true in
  let sel := ["pm25"] in
  let df := temporal_index 0 (load Samples.gap) in
  let daily := {| columns := ["pm25"];
                  object_dtype := [false];
                  datetime_index := true;
                  rows := [ mkRow 0 [Num 50];
                            mkRow NS_PER_DAY [NaN];
                            mkRow (2 * NS_PER_DAY) [Num 60] ] |} in
  length (rows daily) = Z.to_nat (2 - 0 + 1) /\
  (StWarning SPARSE_WARNING ∈ snd (stage_daily sel df) <-> 2 - 0 < 6).
Proof.
  intros pandas sel df daily.
  apply (sparse_warning_counts_span (pandas := demo Demo.argsort_stable true)
           sel df daily 0 2).
  - vm_compute. reflexivity.
  - reflexivity.
  - reflexivity.
Defined.


Example with_city_run :
  app (pandas := demo NumPy.argsort false) Samples.with_city Samples.defaults =
  (Raised TypeError,
   [StSuccess 2 3;
    SidebarHeader "Filter Options";
    Multiselect ["pm25"] ["pm25"];
    DateInput "Start Date" (Some 0);
    DateInput "End Date" (Some 1);
    StMarkdown "---"]).
Proof. vm_compute. reflexivity. Qed.

Lemma rolling_value_needs_seven_numbers_witness :
  exists x, [Num 3] !! 0%nat = Some x /\ is_text x = false /\
    (is_missing x = false <->
     (6 <= 6)%nat /\
     forall k, (6 - 6 <= k <= 6)%nat ->
               exists r0 q, rows Samples.week !! k = Some r0 /\
                            cells r0 !! 0%nat = Some (Num q)).
Proof.
  apply (rolling_value_needs_seven_numbers Samples.week 6 0
           (mkRow (6 * NS_PER_DAY) [Num 3])).
  - simpl. lia.
  - vm_compute. reflexivity.
  - simpl. lia.
Defined.

Example rolling_week :
  map cells (rows (rolling_avg Samples.week)) =
  [ [NaN]; [NaN]; [NaN]; [NaN]; [NaN]; [NaN]; [Num 3] ].
Proof. vm_compute. reflexivity. Qed.

Example rolling_short : rolling_avg Samples.one_reading = Samples.one_reading.
Proof. reflexivity. Qed.

Example headline_scenario :
  let w := {| columns := ["pm25"; "no2"];
              object_dtype := [false; false];
              datetime_index := true;
              rows := [ mkRow 0 [Num 50; Num 30];
                        mkRow 1 [Num 70; NaN];
                        mkRow 2 [Num 60; Num 40] ] |} in
  overall_min ["pm25"; "no2"] w = Some 30%Q /\
  overall_max ["pm25"; "no2"] w = Some 70%Q /\
  exists m, overall_mean ["pm25"; "no2"] w = Some m /\ (m == 95 # 2)%Q.
Proof.
  cbv zeta. split; [reflexivity|]. split; [reflexivity|].
  eexists. split; [reflexivity|]. vm_compute. reflexivity.
Qed.

Example monthly_two_months :
  monthly_avg Samples.thirty_day_month ["pm25"] Samples.two_months =
    [ (1, [Num 2]); (2, [Num 9]) ] /\
  monthly_view (monthly_avg Samples.thirty_day_month ["pm25"] Samples.two_months) = BarView.
Proof. split; vm_compute; reflexivity. Qed.
